(** * Tracking callbacks of optuna.integration

    A shallow embedding of [optuna/integration/wandb.py] (the
    Weights & Biases callback) and of the MLflow callback that
    [tests/integration_tests/test_mlflow.py] exercises, together with the
    properties of the two adapters.

    The tracking SDKs are external: an adapter is modelled by the calls it
    issues into its SDK, threaded through a small state-and-exception
    monad. *)

From Stdlib Require Import ZArith PrimFloat Ascii String.
From stdpp Require Import gmap strings list fin_maps pretty.

Local Open Scope Z_scope.
Local Open Scope string_scope.

(** ** Python prelude *)

(** [s.split(sep)] for a one-character separator: the pieces between the
    separators, in order; never the empty list. *)
Fixpoint split (sep : ascii) (s : string) : list string :=
  match s with
  | EmptyString => [EmptyString]
  | String c s' =>
      if Ascii.eqb c sep then EmptyString :: split sep s'
      else match split sep s' with
           | [] => [String c EmptyString]
           | w :: ws => String c w :: ws
           end
  end.

(** [l[-1]] on a list of strings that [split] produced. *)
Definition last_item (l : list string) : string := List.last l EmptyString.

(** [str(x).split(".")[-1]], the idiom both adapters use on enum values. *)
Definition split_dot_last (s : string) : string := last_item (split "." s).

(** Statements either return or raise; the state they leave behind is
    kept in both cases. *)
Inductive Result (E A : Type) : Type :=
| Return (a : A)
| Raise (e : E).
Arguments Return {E A} a.
Arguments Raise {E A} e.

Definition M (S E A : Type) : Type := S -> Result E A * S.

Definition bind {S E A B} (m : M S E A) (k : A -> M S E B) : M S E B :=
  fun s =>
    match m s with
    | (Return a, s') => k a s'
    | (Raise e, s') => (Raise e, s')
    end.

#[export] Instance M_ret {S E} : MRet (M S E) :=
  fun A a s => (Return a, s).

#[export] Instance M_bind {S E} : MBind (M S E) :=
  fun A B k m => bind m k.

(** [raise e] *)
Definition raise {S E A} (e : E) : M S E A := fun s => (Raise e, s).

(** ** Records of the optimization engine

    [optuna.trial.TrialState] and [optuna.study.StudyDirection] are enums;
    [str] of a member is the class name, a dot, and the member name. *)
Inductive TrialState : Set := RUNNING | COMPLETE | PRUNED | FAIL | WAITING.

Inductive StudyDirection : Set := NOT_SET | MINIMIZE | MAXIMIZE.

Definition str_TrialState (s : TrialState) : string :=
  match s with
  | RUNNING => "TrialState.RUNNING"
  | COMPLETE => "TrialState.COMPLETE"
  | PRUNED => "TrialState.PRUNED"
  | FAIL => "TrialState.FAIL"
  | WAITING => "TrialState.WAITING"
  end.

Definition str_StudyDirection (d : StudyDirection) : string :=
  match d with
  | NOT_SET => "StudyDirection.NOT_SET"
  | MINIMIZE => "StudyDirection.MINIMIZE"
  | MAXIMIZE => "StudyDirection.MAXIMIZE"
  end.

(** Python values that travel through the adapters. The distribution
    classes are declared elsewhere in optuna; the adapters only pass them
    on, so their type is a parameter. *)
Inductive PyVal (Distribution : Type) : Type :=
| VNone
| VBool (b : bool)
| VInt (z : Z)
| VFloat (f : float)
| VStr (s : string)
| VDistributions (d : gmap string Distribution).
Arguments VNone {Distribution}.
Arguments VBool {Distribution} b.
Arguments VInt {Distribution} z.
Arguments VFloat {Distribution} f.
Arguments VStr {Distribution} s.
Arguments VDistributions {Distribution} d.

(** [optuna.trial.FrozenTrial], the fields the adapters read. *)
Record FrozenTrial (Distribution : Type) : Type := mkFrozenTrial {
  number : Z;
  state : TrialState;
  value : option float;
  params : gmap string (PyVal Distribution);
  distributions : gmap string Distribution;
  user_attrs : gmap string (PyVal Distribution)
}.
Arguments mkFrozenTrial {Distribution}.
Arguments number {Distribution} _.
Arguments state {Distribution} _.
Arguments value {Distribution} _.
Arguments params {Distribution} _.
Arguments distributions {Distribution} _.
Arguments user_attrs {Distribution} _.

(** [optuna.study.Study], the fields the adapters read. Its [user_attrs]
    is [study_user_attrs] here, the trial's keeps the plain name. *)
Record Study (Distribution : Type) : Type := mkStudy {
  study_name : string;
  direction : StudyDirection;
  study_user_attrs : gmap string (PyVal Distribution)
}.
Arguments mkStudy {Distribution}.
Arguments study_name {Distribution} _.
Arguments direction {Distribution} _.
Arguments study_user_attrs {Distribution} _.

(** A value of type [Optional[float]] as a Python value. *)
Definition of_optional_float {Distribution} (v : option float) : PyVal Distribution :=
  match v with
  | Some f => VFloat f
  | None => VNone
  end.

(** [{**base, **upd}]: the keys of [upd] win. *)
Definition dict_update {V} (base upd : gmap string V) : gmap string V := upd ∪ base.

(** Exceptions that the adapters' own code paths can raise. *)
Inductive PyExn : Set :=
| ImportError.

(** ** The Weights & Biases SDK, as the callback uses it

    The SDK is external. Its state is the sequence of calls it received,
    oldest first. *)
Module wandb.
Section sdk.
Context {Distribution : Type}.

Inductive Call : Type :=
| Init (project group entity name job_type : option string)
       (mode : string) (reinit : bool)
| ConfigUpdate (d : gmap string (PyVal Distribution))
| Log (data : gmap string (PyVal Distribution)) (step : Z).

Definition send (c : Call) : M (list Call) PyExn unit :=
  fun calls => (Return tt, (calls ++ [c])%list).

(** [wandb.init(project=, group=, entity=, name=, job_type=, mode=, reinit=)] *)
Definition init (project group entity name job_type : option string)
    (mode : string) (reinit : bool) : M (list Call) PyExn unit :=
  send (Init project group entity name job_type mode reinit).

(** [wandb.config.update(d)] *)
Definition config_update (d : gmap string (PyVal Distribution)) :
    M (list Call) PyExn unit :=
  send (ConfigUpdate d).

(** [wandb.log(data, step=step)] *)
Definition log (data : gmap string (PyVal Distribution)) (step : Z) :
    M (list Call) PyExn unit :=
  send (Log data step).

Definition is_init (c : Call) : bool :=
  match c with
  | Init _ _ _ _ _ _ _ => true
  | _ => false
  end.

(** The runs a sequence of calls makes, newest first: [Init] starts a
    run, and every other call goes to the run started last. *)
Record Run : Type := mkRun {
  settings : Call;
  received : list Call
}.

Definition deliver (rs : list Run) (c : Call) : list Run :=
  if is_init c then mkRun c [] :: rs
  else match rs with
       | r :: rs' => mkRun (settings r) (received r ++ [c])%list :: rs'
       | [] => []
       end.

Definition runs (calls : list Call) : list Run := fold_left deliver calls [].
End sdk.
Arguments Call : clear implicits.
Arguments Run : clear implicits.
End wandb.

(** ** [optuna.integration.wandb.WeightsAndBiasesCallback]

    The [experimental] decorator of the class only warns, and is left
    out. *)
Module WeightsAndBiasesCallback.

(** The instance attributes. *)
Record Self : Type := mkSelf {
  _metric_name : string;
  _project_name : option string;
  _group_name : option string;
  _entity_name : option string;
  _run_name : option string;
  _job_type : option string;
  _mode : string
}.

(** The defaults of the keyword arguments [metric_name] and [mode]. *)
Definition default_metric_name : string := "value".

Definition default_mode : string := "online".

Section methods.
Context {Distribution : Type}.
Local Abbreviation SDK := (list (wandb.Call Distribution)).

(** [_imports.check()]: raises when [import wandb] had failed. *)
Definition _imports_check (_imports : bool) : M SDK PyExn unit :=
  if _imports then mret tt else raise ImportError.

(** A method yields the instance as it leaves it. *)
Definition _initialize_run (self : Self) : M SDK PyExn Self :=
  wandb.init (_project_name self) (_group_name self) (_entity_name self)
             (_run_name self) (_job_type self) (_mode self) true ;;
  mret self.

Definition __init__ (_imports : bool) (metric_name : string)
    (project_name group_name entity_name run_name job_type : option string)
    (mode : string) : M SDK PyExn Self :=
  _imports_check _imports ;;
  let self := {| _metric_name := metric_name;
                 _project_name := project_name;
                 _group_name := group_name;
                 _entity_name := entity_name;
                 _run_name := run_name;
                 _job_type := job_type;
                 _mode := mode |} in
  _initialize_run self.

(** The dictionary [attributes] of [__call__]. *)
Definition attributes (study : Study Distribution)
    (trial : FrozenTrial Distribution) : gmap string (PyVal Distribution) :=
  let trial_state := split_dot_last (str_TrialState (state trial)) in
  let direction := split_dot_last (str_StudyDirection (direction study)) in
  dict_update
    (<["distributions" := VDistributions (distributions trial)]>
       (<["trial_state" := VStr trial_state]>
          (<["direction" := VStr direction]> ∅)))
    (study_user_attrs study).

(** The dictionary [{**trial.params, self._metric_name: trial.value}]. *)
Definition logged (self : Self) (trial : FrozenTrial Distribution) :
    gmap string (PyVal Distribution) :=
  <[_metric_name self := of_optional_float (value trial)]> (params trial).

Definition __call__ (self : Self) (study : Study Distribution)
    (trial : FrozenTrial Distribution) : M SDK PyExn Self :=
  wandb.config_update (attributes study trial) ;;
  wandb.log (logged self trial) (number trial) ;;
  mret self.

(** The two calls that one invocation is to issue for a finished trial. *)
Definition emitted (self : Self)
    (event : Study Distribution * FrozenTrial Distribution) : SDK :=
  [wandb.ConfigUpdate (attributes event.1 event.2);
   wandb.Log (logged self event.2) (number event.2)].

(** The driver loop, which is not part of this code, invokes the
    callback once for each finished trial, in order. *)
Fixpoint invoke_all (self : Self)
    (finished : list (Study Distribution * FrozenTrial Distribution)) :
    M SDK PyExn Self :=
  match finished with
  | [] => mret self
  | (study, trial) :: rest =>
      self' ← __call__ self study trial ;
      invoke_all self' rest
  end.

(** Construction followed by the driver's invocations. *)
Definition session (_imports : bool) (metric_name : string)
    (project_name group_name entity_name run_name job_type : option string)
    (mode : string)
    (finished : list (Study Distribution * FrozenTrial Distribution)) :
    M SDK PyExn Self :=
  self ← __init__ _imports metric_name project_name group_name entity_name
                  run_name job_type mode ;
  invoke_all self finished.
End methods.
End WeightsAndBiasesCallback.

(** ** The MLflow SDK, as the second adapter uses it *)
Module mlflow.

(** Modelled from the spec: the SDK itself is a third-party package, and
    this is the part of its session management the spec and the tests
    speak of. A run owns params, metrics and tags, and a child run
    carries the id of its parent; runs that are active form a stack,
    innermost first; a run that ended is kept. *)
Record RunData : Type := mkRunData {
  run_id : string;
  parent_run_id : option string;
  params : gmap string string;
  metrics : gmap string float;
  tags : gmap string string
}.

(** The store keeps every experiment that was created, oldest first;
    [experiment] is the one that is set. *)
Record State : Type := mkState {
  tracking_uri : option string;
  experiment : option string;
  finished : list RunData;
  active : list RunData;
  experiments : list string
}.

(** The SDK's exception, with its message. *)
Inductive MlflowException : Type :=
| Exception (message : string).

Definition all_runs (s : State) : list RunData := (finished s ++ active s)%list.

Definition set_tracking_uri (uri : string) : M State MlflowException unit :=
  fun s =>
    (Return tt,
     mkState (Some uri) (experiment s) (finished s) (active s) (experiments s)).

(** The experiments with the one of that name, created if there is
    none. *)
Definition with_experiment (name : string) (known : list string) : list string :=
  if bool_decide (name ∈ known) then known else (known ++ [name])%list.

(** [mlflow.set_experiment(name)]: sets the experiment of that name,
    creating it when the store has none. *)
Definition set_experiment (name : string) : M State MlflowException unit :=
  fun s =>
    (Return tt,
     mkState (tracking_uri s) (Some name) (finished s) (active s)
       (with_experiment name (experiments s))).

(** A run that starts while another is active is the child of that
    one. *)
Definition new_run (s : State) : RunData :=
  mkRunData (pretty (length (all_runs s))) (run_id <$> head (active s)) ∅ ∅ ∅.

Definition push (r : RunData) (s : State) : State :=
  mkState (tracking_uri s) (experiment s) (finished s) (r :: active s)
    (experiments s).

(** [mlflow.start_run(nested=nested)]: refused while a run is active,
    unless [nested]. *)
Definition start_run (nested : bool) : M State MlflowException unit :=
  fun s =>
    match active s with
    | r :: _ =>
        if nested then (Return tt, push (new_run s) s)
        else (Raise (Exception ("Run with UUID " ++ run_id r ++ " is already active.")), s)
    | [] => (Return tt, push (new_run s) s)
    end.

(** [mlflow.end_run()] *)
Definition end_run : M State MlflowException unit :=
  fun s =>
    match active s with
    | r :: rest =>
        (Return tt,
         mkState (tracking_uri s) (experiment s) (finished s ++ [r])%list rest
           (experiments s))
    | [] => (Return tt, s)
    end.

(** The exit of a [with] block: the run ends whether the body returns or
    raises. *)
Definition ending_run {A} (body : M State MlflowException A) :
    M State MlflowException A :=
  fun s => let '(r, s') := body s in (r, snd (end_run s')).

(** [with mlflow.start_run(nested=nested): body] *)
Definition with_run {A} (nested : bool) (body : M State MlflowException A) :
    M State MlflowException A :=
  start_run nested ;; ending_run body.

(** The logging functions write to the innermost active run, and start a
    run first when none is active. *)
Definition on_active_run (f : RunData -> RunData) : M State MlflowException unit :=
  fun s =>
    match active s with
    | r :: rest =>
        (Return tt,
         mkState (tracking_uri s) (experiment s) (finished s) (f r :: rest)
           (experiments s))
    | [] => (Return tt, push (f (new_run s)) s)
    end.

Definition log_metric (key : string) (v : float) : M State MlflowException unit :=
  on_active_run (fun r =>
    mkRunData (run_id r) (parent_run_id r) (params r) (<[key := v]> (metrics r)) (tags r)).

(** [mlflow.log_params(d)]: a param is written once. Logging another
    value for a param that the run has is refused, with the exception whose
    message starts as below, and the run keeps what it has. *)
Definition log_params (d : gmap string string) : M State MlflowException unit :=
  fun s =>
    match active s with
    | r :: _ =>
        if bool_decide (map_agree (params r) d)
        then on_active_run (fun r =>
               mkRunData (run_id r) (parent_run_id r)
                 (dict_update (params r) d) (metrics r) (tags r)) s
        else (Raise (Exception "Changing param values is not allowed."), s)
    | [] =>
        on_active_run (fun r =>
          mkRunData (run_id r) (parent_run_id r)
            (dict_update (params r) d) (metrics r) (tags r)) s
    end.

Definition set_tags (d : gmap string string) : M State MlflowException unit :=
  on_active_run (fun r =>
    mkRunData (run_id r) (parent_run_id r) (params r) (metrics r) (dict_update (tags r) d)).

(** The innermost active run. *)
Definition active_run (s : State) : option RunData := head (active s).
End mlflow.

(** ** The MLflow callback *)
Module MLflowCallback.

(** Modelled from the spec: [optuna/integration/mlflow.py] is not among
    the sources; only its tests are. The adapter is configured with a
    tracking URI, one metric name or a list of them, the nesting flag and
    the flag that adds the study's user attributes to the tags. The test's
    [MLFlowIntegrator] is built from the first two and offers
    [initialize_experiment], [log_metric] and [log_params]. *)
Inductive MetricName : Type :=
| Single (name : string)
| Multi (names : list string).

(** The objective as [log_metric] is given it: [None] or a float, or a
    list of floats. *)
Inductive Objective : Type :=
| Scalar (v : option float)
| Vector (vs : list float).

Record Self : Type := mkSelf {
  _tracking_uri : option string;
  _metric_name : MetricName;
  _nest_trials : bool;
  _tag_study_user_attrs : bool
}.

(** Modelled from the spec: the size limit of the tracking service for a
    tag value, 5000 characters in the test. *)
Definition max_mlflow_tag_length : nat := 5000.

(** Modelled from the spec: a value exceeding the limit is cut down to
    the limit, any other value is kept. *)
Definition truncate (s : string) : string :=
  if (max_mlflow_tag_length <? String.length s)%nat
  then substring 0 max_mlflow_tag_length s
  else s.

Section methods.
Context {Distribution : Type}.

(** Python's [str] on values and on distributions. *)
Variable str : PyVal Distribution -> string.
Variable str_Distribution : Distribution -> string.

(** What [log_metric] does when names and values differ in shape (one
    name with a list of values, a list of names with one value): neither
    the spec nor the tests say. *)
Variable shape_mismatch : M mlflow.State mlflow.MlflowException unit.

Local Abbreviation SDK := mlflow.State.
Local Abbreviation Exn := mlflow.MlflowException.

(** Modelled from the spec: the experiment is named after the study. *)
Definition initialize_experiment (self : Self) (study : Study Distribution) :
    M SDK Exn Self :=
  match _tracking_uri self with
  | Some uri => mlflow.set_tracking_uri uri
  | None => mret tt
  end ;;
  mlflow.set_experiment (study_name study) ;;
  mret self.

Fixpoint log_each (named : list (string * float)) : M SDK Exn unit :=
  match named with
  | [] => mret tt
  | (name, v) :: rest => mlflow.log_metric name v ;; log_each rest
  end.

(** Modelled from the spec: one value goes under the one configured
    name, NaN standing for [None]; a list of values goes under the list of
    names, position by position. *)
Definition log_metric (self : Self) (value : Objective) : M SDK Exn Self :=
  match _metric_name self, value with
  | Single name, Scalar v => mlflow.log_metric name (default nan v)
  | Multi names, Vector vs => log_each (zip names vs)
  | _, _ => shape_mismatch
  end ;;
  mret self.

(** Modelled from the spec: every parameter of the trial is logged, as
    the string the SDK stores. *)
Definition log_params (self : Self) (trial : FrozenTrial Distribution) :
    M SDK Exn Self :=
  mlflow.log_params (str <$> params trial) ;;
  mret self.

(** Modelled from the spec: the tags are the trial's state, the study's
    direction, the trial's user attributes, one [<name>_distribution] per
    parameter and, when the flag asks for them, the study's user
    attributes. *)
Definition distribution_tags (trial : FrozenTrial Distribution) :
    gmap string string :=
  list_to_map
    ((fun kv => (fst kv ++ "_distribution", str_Distribution (snd kv)))
       <$> map_to_list (distributions trial)).

Definition assembled_tags (self : Self) (study : Study Distribution)
    (trial : FrozenTrial Distribution) : gmap string string :=
  let tags : gmap string string :=
    <["direction" := split_dot_last (str_StudyDirection (direction study))]>
      (<["state" := split_dot_last (str_TrialState (state trial))]> ∅) in
  let tags := dict_update tags (str <$> user_attrs trial) in
  let tags := dict_update tags (distribution_tags trial) in
  if _tag_study_user_attrs self
  then dict_update tags (str <$> study_user_attrs study)
  else tags.

(** The tags as they are handed to the SDK. *)
Definition forwarded_tags (self : Self) (study : Study Distribution)
    (trial : FrozenTrial Distribution) : gmap string string :=
  truncate <$> assembled_tags self study trial.

Definition set_tags (self : Self) (study : Study Distribution)
    (trial : FrozenTrial Distribution) : M SDK Exn Self :=
  mlflow.set_tags (forwarded_tags self study trial) ;;
  mret self.

(** Modelled from the spec: one run per trial, nested when the flag is
    set; nothing is caught. *)
Definition __call__ (self : Self) (study : Study Distribution)
    (trial : FrozenTrial Distribution) : M SDK Exn Self :=
  initialize_experiment self study ;;
  mlflow.with_run (_nest_trials self)
    (log_metric self (Scalar (value trial)) ;;
     log_params self trial ;;
     set_tags self study trial) ;;
  mret self.

(** The driver's invocations, one for each finished trial; an exception
    ends them. *)
Fixpoint invoke_all (self : Self)
    (finished : list (Study Distribution * FrozenTrial Distribution)) :
    M SDK Exn Self :=
  match finished with
  | [] => mret self
  | (study, trial) :: rest =>
      self' ← __call__ self study trial ;
      invoke_all self' rest
  end.

(** The SDK after [initialize_experiment]. *)
Definition configured (self : Self) (study : Study Distribution) (s : SDK) : SDK :=
  mlflow.mkState
    match _tracking_uri self with
    | Some uri => Some uri
    | None => mlflow.tracking_uri s
    end
    (Some (study_name study)) (mlflow.finished s) (mlflow.active s)
    (mlflow.with_experiment (study_name study) (mlflow.experiments s)).

(** The run that one invocation is to leave behind when the SDK lets
    the run start, for a callback with the one metric name [name]. *)
Definition recorded_run (self : Self) (name : string)
    (study : Study Distribution) (trial : FrozenTrial Distribution)
    (s : SDK) : mlflow.RunData :=
  mlflow.mkRunData
    (pretty (length (mlflow.all_runs s)))
    (mlflow.run_id <$> head (mlflow.active s))
    (str <$> params trial)
    {[ name := default nan (value trial) ]}
    (forwarded_tags self study trial).

(** The metrics after logging the pairs in order, from the metrics [m]. *)
Definition logged_metrics (named : list (string * float))
    (m : gmap string float) : gmap string float :=
  fold_left (fun m kv => <[kv.1 := kv.2]> m) named m.

End methods.
End MLflowCallback.

(** ** Recording a trial in full

    What it means for the calls of one invocation to record the trial and
    the study in full: every parameter and the objective value are in a
    logged dictionary, and state, direction, distributions and the user
    attributes of both records are in a config update. *)
Definition in_log {Distribution} (calls : list (wandb.Call Distribution))
    (k : string) (v : PyVal Distribution) : Prop :=
  exists d step, wandb.Log d step ∈ calls /\ d !! k = Some v.

Definition in_config {Distribution} (calls : list (wandb.Call Distribution))
    (k : string) (v : PyVal Distribution) : Prop :=
  exists d, wandb.ConfigUpdate d ∈ calls /\ d !! k = Some v.

Definition records_all_fields {Distribution} (metric_name : string)
    (study : Study Distribution) (trial : FrozenTrial Distribution)
    (calls : list (wandb.Call Distribution)) : Prop :=
  (forall k v, params trial !! k = Some v -> in_log calls k v)
  /\ in_log calls metric_name (of_optional_float (value trial))
  /\ in_config calls "trial_state" (VStr (split_dot_last (str_TrialState (state trial))))
  /\ in_config calls "direction" (VStr (split_dot_last (str_StudyDirection (direction study))))
  /\ in_config calls "distributions" (VDistributions (distributions trial))
  /\ (forall k v, user_attrs trial !! k = Some v -> in_config calls k v)
  /\ (forall k v, study_user_attrs study !! k = Some v -> in_config calls k v).

(** The trial with other user attributes, everything else as it is. *)
Definition with_user_attrs {Distribution}
    (attrs : gmap string (PyVal Distribution))
    (trial : FrozenTrial Distribution) : FrozenTrial Distribution :=
  mkFrozenTrial (number trial) (state trial) (value trial) (params trial)
    (distributions trial) attrs.

(** ** Sample records, after the objective functions of the tests *)
Module Samples.

(** A distribution is represented by its [repr]. *)
Definition x_distribution : string := "UniformDistribution(high=1.0, low=-1.0)".

Definition str (v : PyVal string) : string :=
  match v with
  | VNone => "None"
  | VBool true => "True"
  | VBool false => "False"
  | VInt z => pretty z
  | VFloat _ => "float"
  | VStr s => s
  | VDistributions _ => "dict"
  end.

Definition study : Study string := mkStudy "my_study" MINIMIZE ∅.

Definition trial : FrozenTrial string :=
  mkFrozenTrial 0 COMPLETE (Some 2.25%float)
    {[ "x" := VFloat 0.5%float ]}
    {[ "x" := x_distribution ]}
    {[ "my_user_attr" := VStr "my_user_attr_value" ]}.

(** A trial with a parameter that has the default metric name. *)
Definition trial_with_value_param : FrozenTrial string :=
  mkFrozenTrial 1 COMPLETE (Some 2.25%float)
    {[ "value" := VFloat 0.5%float ]}
    {[ "value" := x_distribution ]}
    ∅.

(** A study with a user attribute named as one of the fixed keys. *)
Definition study_with_direction_attr : Study string :=
  mkStudy "my_study" MINIMIZE {[ "direction" := VStr "up" ]}.

(** A user attribute longer than the limit. *)
Definition long_str : string :=
  string_of_list_ascii (repeat "a"%char (60 * 100)).

Definition trial_with_long_attr : FrozenTrial string :=
  mkFrozenTrial 0 COMPLETE (Some 2.25%float)
    {[ "x" := VFloat 0.5%float ]}
    {[ "x" := x_distribution ]}
    {[ "my_user_attr" := VStr long_str ]}.

Definition wandbc : WeightsAndBiasesCallback.Self :=
  WeightsAndBiasesCallback.mkSelf WeightsAndBiasesCallback.default_metric_name
    None None None None None WeightsAndBiasesCallback.default_mode.

(** The SDK with nothing recorded, and with one parent run active. *)
Definition fresh : mlflow.State := mlflow.mkState None None [] [] [].

Definition parent_run : mlflow.RunData := mlflow.mkRunData "0" None ∅ ∅ ∅.

Definition in_parent : mlflow.State :=
  mlflow.mkState None (Some "my_study") [] [parent_run] ["my_study"].

(** A mismatch of shapes is let through here. *)
Definition shape_mismatch : M mlflow.State mlflow.MlflowException unit := mret tt.

(** The study and the trial of [test_tag_study_user_attrs] and of
    [test_log_params]. *)
Definition study_with_attr : Study string :=
  mkStudy "my_study" MINIMIZE {[ "my_study_attr" := VStr "a" ]}.

Definition trial_of_log_params : FrozenTrial string :=
  mkFrozenTrial 0 COMPLETE (Some 5%float)
    (<["my_param2" := VInt 5]> {[ "my_param1" := VStr "a" ]})
    (<["my_param2" := "UniformDistribution(high=10, low=0)"]>
       {[ "my_param1" := "CategoricalDistribution(choices=('a', 'b'))" ]})
    ∅.
End Samples.

(** ** Notions for the further properties *)

(** Whether the character occurs in the string. *)
Fixpoint has_char (c : ascii) (s : string) : bool :=
  match s with
  | EmptyString => false
  | String c' s' => Ascii.eqb c' c || has_char c s'
  end.

(** The steps of the [log] calls among the calls, in order. *)
Definition steps {Distribution} (calls : list (wandb.Call Distribution)) : list Z :=
  flat_map (fun c => match c with
                     | wandb.Log _ step => [step]
                     | _ => []
                     end) calls.

(** Two callbacks in one process. *)
Module TwoCallbacks.
Import WeightsAndBiasesCallback.

Section scenario.
Context {Distribution : Type}.

(** The construction that gives the instance [s], with [wandb]
    importable. *)
Definition construct (s : Self) : M (list (wandb.Call Distribution)) PyExn Self :=
  __init__ true (_metric_name s) (_project_name s) (_group_name s)
    (_entity_name s) (_run_name s) (_job_type s) (_mode s).

(** The [wandb.init] call of that construction. *)
Definition init_call (s : Self) : wandb.Call Distribution :=
  wandb.Init (_project_name s) (_group_name s) (_entity_name s) (_run_name s)
    (_job_type s) (_mode s) true.

(** A first callback is constructed and invoked for [before], then a
    second one is constructed, and the first is invoked for [after]. *)
Definition second_construction (a b : Self)
    (before after : list (Study Distribution * FrozenTrial Distribution)) :
    M (list (wandb.Call Distribution)) PyExn Self :=
  a1 ← construct a ;
  a2 ← invoke_all a1 before ;
  _ ← construct b ;
  invoke_all a2 after.
End scenario.
End TwoCallbacks.

(** ** [tests/integration_tests/test_mlflow.py], the objective with the
    long user attribute *)
Module test_mlflow.

(** [list(range(n))] *)
Definition range (n : nat) : list nat := seq 0 n.

(** [str(l)] for a list of naturals: the decimals, separated by a comma
    and a space, in brackets. *)
Definition str_list (l : list nat) : string :=
  "[" ++ String.concat ", " (pretty <$> l) ++ "]".

(** [long_str] of [_objective_func_long_user_attr] *)
Definition long_str : string := str_list (range 5000).
End test_mlflow.

(** * Properties *)

(** Runs the monad's plumbing in the goal. *)
Ltac run_monad := unfold mbind, M_bind, bind, mret, M_ret; cbn.

(** ** The enum idiom *)

Lemma trial_state_name (s : TrialState) :
  str_TrialState s = "TrialState." ++ split_dot_last (str_TrialState s).
Proof. destruct s; reflexivity. Qed.

Lemma study_direction_name (d : StudyDirection) :
  str_StudyDirection d = "StudyDirection." ++ split_dot_last (str_StudyDirection d).
Proof. destruct d; reflexivity. Qed.

Example state_COMPLETE : split_dot_last (str_TrialState COMPLETE) = "COMPLETE".
Proof. reflexivity. Qed.

Example direction_MINIMIZE : split_dot_last (str_StudyDirection MINIMIZE) = "MINIMIZE".
Proof. reflexivity. Qed.

Example split_keeps_empty_pieces : split "." "a..b." = ["a"; ""; "b"; ""].
Proof. reflexivity. Qed.

(** ** The Weights & Biases callback *)
Module WandbFacts.
Import WeightsAndBiasesCallback.

Section facts.
Context {Distribution : Type}.
Implicit Types (self : Self) (study : Study Distribution)
  (trial : FrozenTrial Distribution) (calls : list (wandb.Call Distribution))
  (finished : list (Study Distribution * FrozenTrial Distribution)).

Lemma call_spec self study trial calls :
  __call__ self study trial calls
  = (Return self, (calls ++ emitted self (study, trial))%list).
Proof.
  unfold __call__, emitted, wandb.config_update, wandb.log, wandb.send.
  run_monad. by rewrite <- app_assoc.
Qed.

Lemma initialize_run_spec self calls :
  _initialize_run self calls
  = (Return self,
     (calls ++ [wandb.Init (_project_name self) (_group_name self)
                  (_entity_name self) (_run_name self) (_job_type self)
                  (_mode self) true])%list).
Proof. reflexivity. Qed.

Lemma init_spec metric_name project group entity name job_type mode calls :
  __init__ true metric_name project group entity name job_type mode calls
  = (Return (mkSelf metric_name project group entity name job_type mode),
     (calls ++ [wandb.Init project group entity name job_type mode true])%list).
Proof. reflexivity. Qed.

Lemma init_without_wandb metric_name project group entity name job_type mode calls :
  __init__ false metric_name project group entity name job_type mode calls
  = (Raise ImportError, calls).
Proof. reflexivity. Qed.

Lemma invoke_all_spec finished : forall self calls,
  invoke_all self finished calls
  = (Return self, (calls ++ flat_map (emitted self) finished)%list).
Proof.
  induction finished as [|[study trial] rest IH]; intros self calls.
  - cbn. by rewrite app_nil_r.
  - cbn [invoke_all flat_map]. unfold mbind, M_bind, bind.
    rewrite call_spec, IH. by rewrite <- app_assoc.
Qed.

Lemma flat_emitted_no_init self finished :
  filter (fun c => wandb.is_init c = true) (flat_map (emitted self) finished) = [].
Proof. induction finished as [|e rest IH]; [done|]. cbn. exact IH. Qed.

Lemma deliver_emitted self finished : forall r rs,
  fold_left wandb.deliver (flat_map (emitted self) finished) (r :: rs)
  = wandb.mkRun (wandb.settings r)
      (wandb.received r ++ flat_map (emitted self) finished)%list :: rs.
Proof.
  induction finished as [|e rest IH]; intros r rs.
  - cbn. rewrite app_nil_r. by destruct r.
  - cbn [flat_map emitted app fold_left]. cbn [wandb.deliver wandb.is_init].
    rewrite IH. cbn. by rewrite <- !app_assoc.
Qed.

Lemma attributes_lookup study trial k :
  attributes study trial !! k
  = match study_user_attrs study !! k with
    | Some v => Some v
    | None =>
        if decide (k = "distributions")
        then Some (VDistributions (distributions trial))
        else if decide (k = "trial_state")
        then Some (VStr (split_dot_last (str_TrialState (state trial))))
        else if decide (k = "direction")
        then Some (VStr (split_dot_last (str_StudyDirection (direction study))))
        else None
    end.
Proof.
  unfold attributes, dict_update.
  destruct (study_user_attrs study !! k) as [v|] eqn:Hk.
  - by apply lookup_union_Some_l.
  - rewrite lookup_union_r by done.
    repeat case_decide; simplify_map_eq; done.
Qed.

Lemma logged_lookup self trial k :
  logged self trial !! k
  = if decide (k = _metric_name self)
    then Some (of_optional_float (value trial))
    else params trial !! k.
Proof.
  unfold logged. case_decide; simplify_map_eq; done.
Qed.

(** C5. No call changes the configuration of the callback: the instance
    that one invocation, or any sequence of invocations, leaves behind is
    the instance it was given, with its metric name, project, group,
    entity, run name, job type and mode. *)
Theorem call_keeps_configuration self finished calls :
  (forall study trial, (__call__ self study trial calls).1 = Return self)
  /\ (invoke_all self finished calls).1 = Return self.
Proof.
  split.
  - intros study trial. by rewrite call_spec.
  - by rewrite invoke_all_spec.
Qed.

(** C6. The whole study is one flat run: constructing the callback
    initialises a run once, with the constructor's project, group, entity,
    run name, job type and mode, and each invocation after it logs the
    trial's parameters and objective value at the step of the trial's
    number, into that run, starting no other. *)
Theorem single_flat_run metric_name project group entity name job_type mode
    finished calls :
  session true metric_name project group entity name job_type mode finished calls
  = (Return (mkSelf metric_name project group entity name job_type mode),
     (calls ++ wandb.Init project group entity name job_type mode true
        :: flat_map (fun event =>
             [wandb.ConfigUpdate (attributes event.1 event.2);
              wandb.Log (<[metric_name := of_optional_float (value event.2)]>
                           (params event.2))
                        (number event.2)]) finished)%list)
  /\ filter (fun c => wandb.is_init c = true)
       (session true metric_name project group entity name job_type mode
          finished []).2
     = [wandb.Init project group entity name job_type mode true]
  /\ wandb.runs
       (session true metric_name project group entity name job_type mode
          finished []).2
     = [wandb.mkRun (wandb.Init project group entity name job_type mode true)
          (flat_map (fun event =>
             [wandb.ConfigUpdate (attributes event.1 event.2);
              wandb.Log (<[metric_name := of_optional_float (value event.2)]>
                           (params event.2))
                        (number event.2)]) finished)].
Proof.
  assert (Hs : forall calls0,
    session true metric_name project group entity name job_type mode finished calls0
    = (Return (mkSelf metric_name project group entity name job_type mode),
       (calls0 ++ wandb.Init project group entity name job_type mode true
          :: flat_map (emitted (mkSelf metric_name project group entity name
                                  job_type mode)) finished)%list)).
  { intros calls0. unfold session. unfold mbind, M_bind, bind.
    rewrite init_spec, invoke_all_spec. by rewrite <- app_assoc. }
  split; [exact (Hs calls)|]. rewrite Hs. cbn [snd app]. split.
  - rewrite filter_cons_True by done. by rewrite flat_emitted_no_init.
  - unfold wandb.runs. cbn [fold_left wandb.deliver wandb.is_init].
    by rewrite deliver_emitted.
Qed.

(** C9. Parameters and metric travel in one dictionary, the metric key
    set last: when a parameter is named as the metric, the one [log] call
    of the invocation carries the objective value under that name, and the
    dictionary is what it would be without that parameter. *)
Theorem metric_overwrites_param self study trial calls p :
  params trial !! _metric_name self = Some p ->
  exists d,
    __call__ self study trial calls
    = (Return self,
       (calls ++ [wandb.ConfigUpdate (attributes study trial);
                  wandb.Log d (number trial)])%list)
    /\ d !! _metric_name self = Some (of_optional_float (value trial))
    /\ d = <[_metric_name self := of_optional_float (value trial)]>
             (delete (_metric_name self) (params trial))
    /\ forall k, k ≠ _metric_name self -> d !! k = params trial !! k.
Proof.
  intros _. exists (logged self trial). split; [apply call_spec|].
  split; [by rewrite logged_lookup, decide_True|]. split.
  - unfold logged. by rewrite insert_delete_eq.
  - intros k Hk. by rewrite logged_lookup, decide_False.
Qed.

(** C10. The study's user attributes are merged after the fixed keys:
    the config update is the dictionary of "direction", "trial_state" and
    "distributions" with the study's user attributes laid over it. So a
    study user attribute named as one of the three takes the place of the
    value that the callback computed for that name, and the calls do not
    depend on the trial's user attributes. *)
Theorem study_attr_replaces_fixed_key self study trial calls k v :
  k ∈ ["direction"; "trial_state"; "distributions"] ->
  study_user_attrs study !! k = Some v ->
  exists a d (fixed : gmap string (PyVal Distribution)) computed,
    __call__ self study trial calls
    = (Return self,
       (calls ++ [wandb.ConfigUpdate a; wandb.Log d (number trial)])%list)
    /\ fixed
       = <["distributions" := VDistributions (distributions trial)]>
           (<["trial_state" := VStr (split_dot_last (str_TrialState (state trial)))]>
              (<["direction" :=
                   VStr (split_dot_last (str_StudyDirection (direction study)))]>
                 ∅))
    /\ (forall k',
          a !! k'
          = match study_user_attrs study !! k' with
            | Some w => Some w
            | None => fixed !! k'
            end)
    /\ fixed !! k = Some computed
    /\ a !! k = Some v
    /\ forall attrs,
         __call__ self study (with_user_attrs attrs trial) calls
         = __call__ self study trial calls.
Proof.
  intros Hfixed Hk.
  assert (Hcomputed : exists computed,
    (<["distributions" := VDistributions (distributions trial)]>
       (<["trial_state" := VStr (split_dot_last (str_TrialState (state trial)))]>
          (<["direction" :=
               VStr (split_dot_last (str_StudyDirection (direction study)))]>
             (∅ : gmap string (PyVal Distribution))))) !! k = Some computed).
  { apply elem_of_cons in Hfixed as [->|Hfixed]; [by eexists|].
    apply elem_of_cons in Hfixed as [->|Hfixed]; [by eexists|].
    apply elem_of_cons in Hfixed as [->|Hfixed]; [by eexists|].
    by apply elem_of_nil in Hfixed. }
  destruct Hcomputed as [computed Hcomputed].
  exists (attributes study trial), (logged self trial). eexists _, computed.
  split; [apply call_spec|]. split; [reflexivity|]. split; [|split; [|split]].
  - intros k'. unfold attributes, dict_update.
    destruct (study_user_attrs study !! k') as [w|] eqn:Hk'.
    + by apply lookup_union_Some_l.
    + by rewrite lookup_union_r.
  - exact Hcomputed.
  - by rewrite attributes_lookup, Hk.
  - intros attrs. by rewrite !call_spec.
Qed.

(** What one invocation of the Weights & Biases callback records. It
    issues one config update and one log call. The log carries
    every parameter whose name is not the metric name, and the objective
    value under the metric name, at the step of the trial's number. The
    config update carries every user attribute of the study, and the
    state, the direction and the distributions under "trial_state",
    "direction" and "distributions" where no study user attribute has that
    name. Nothing else is sent: the user attributes of the trial are
    not. *)
Theorem call_records_fields self study trial calls :
  exists a d,
    __call__ self study trial calls
    = (Return self,
       (calls ++ [wandb.ConfigUpdate a; wandb.Log d (number trial)])%list)
    /\ (forall k v, params trial !! k = Some v -> k ≠ _metric_name self ->
          d !! k = Some v)
    /\ d !! _metric_name self = Some (of_optional_float (value trial))
    /\ dom d = {[ _metric_name self ]} ∪ dom (params trial)
    /\ (forall k v, study_user_attrs study !! k = Some v -> a !! k = Some v)
    /\ (study_user_attrs study !! "trial_state" = None ->
          a !! "trial_state"
          = Some (VStr (split_dot_last (str_TrialState (state trial)))))
    /\ (study_user_attrs study !! "direction" = None ->
          a !! "direction"
          = Some (VStr (split_dot_last (str_StudyDirection (direction study)))))
    /\ (study_user_attrs study !! "distributions" = None ->
          a !! "distributions" = Some (VDistributions (distributions trial)))
    /\ dom a = {[ "direction"; "trial_state"; "distributions" ]}
               ∪ dom (study_user_attrs study).
Proof.
  exists (attributes study trial), (logged self trial).
  split; [apply call_spec|].
  split; [intros k v Hk Hne; by rewrite logged_lookup, decide_False|].
  split; [by rewrite logged_lookup, decide_True|].
  split; [unfold logged; by rewrite dom_insert_L|].
  split; [intros k v Hk; by rewrite attributes_lookup, Hk|].
  split; [intros Hk; by rewrite attributes_lookup, Hk|].
  split; [intros Hk; by rewrite attributes_lookup, Hk|].
  split; [intros Hk; by rewrite attributes_lookup, Hk|].
  unfold attributes, dict_update.
  rewrite dom_union_L, !dom_insert_L, dom_empty_L.
  apply set_eq. intros k. set_unfold. tauto.
Qed.

End facts.

(** The sample trial has a parameter named "value", and the log call
    carries the objective value 2.25 under that name. *)
Lemma metric_overwrites_param_witness :
  params Samples.trial_with_value_param !! "value" = Some (VFloat 0.5%float)
  /\ exists d,
       __call__ Samples.wandbc Samples.study Samples.trial_with_value_param []
       = (Return Samples.wandbc,
          [wandb.ConfigUpdate
             (attributes Samples.study Samples.trial_with_value_param);
           wandb.Log d 1])
       /\ d !! "value" = Some (VFloat 2.25%float)
       /\ d = <["value" := VFloat 2.25%float]>
                (delete "value" (params Samples.trial_with_value_param))
       /\ forall k, k ≠ "value" ->
            d !! k = params Samples.trial_with_value_param !! k.
Proof.
  split; [reflexivity|].
  apply (metric_overwrites_param Samples.wandbc Samples.study
           Samples.trial_with_value_param [] (VFloat 0.5%float)).
  reflexivity.
Defined.

(** The sample study has a user attribute named "direction", and the
    config update carries "up" instead of "MINIMIZE". *)
Lemma study_attr_replaces_fixed_key_witness :
  "direction" ∈ ["direction"; "trial_state"; "distributions"]
  /\ study_user_attrs Samples.study_with_direction_attr !! "direction"
     = Some (VStr "up")
  /\ exists a d (fixed : gmap string (PyVal string)),
       __call__ Samples.wandbc Samples.study_with_direction_attr Samples.trial []
       = (Return Samples.wandbc, [wandb.ConfigUpdate a; wandb.Log d 0])
       /\ fixed !! "direction" = Some (VStr "MINIMIZE")
       /\ a !! "direction" = Some (VStr "up")
       /\ a !! "trial_state" = Some (VStr "COMPLETE")
       /\ forall attrs,
            __call__ Samples.wandbc Samples.study_with_direction_attr
              (with_user_attrs attrs Samples.trial) []
            = __call__ Samples.wandbc Samples.study_with_direction_attr
                Samples.trial [].
Proof.
  split; [apply list_elem_of_here|]. split; [reflexivity|].
  destruct (study_attr_replaces_fixed_key Samples.wandbc
              Samples.study_with_direction_attr Samples.trial [] "direction"
              (VStr "up"))
    as (a & d & fixed & computed & Hcall & Hfixed & Ha & _ & Hk & Hind).
  - apply list_elem_of_here.
  - reflexivity.
  - exists a, d, fixed. split; [exact Hcall|].
    split; [by rewrite Hfixed|]. split; [exact Hk|].
    split; [by rewrite Ha, Hfixed | exact Hind].
Defined.

(** The sample trial has a parameter "x" that is logged, and its study
    has no user attribute that hides a fixed key. *)
Lemma call_records_fields_witness :
  exists a d,
    __call__ Samples.wandbc Samples.study Samples.trial []
    = (Return Samples.wandbc, [wandb.ConfigUpdate a; wandb.Log d 0])
    /\ d !! "x" = Some (VFloat 0.5%float)
    /\ d !! "value" = Some (VFloat 2.25%float)
    /\ a !! "trial_state" = Some (VStr "COMPLETE")
    /\ a !! "direction" = Some (VStr "MINIMIZE")
    /\ a !! "distributions" = Some (VDistributions (distributions Samples.trial))
    /\ a !! "my_user_attr" = None.
Proof.
  destruct (call_records_fields Samples.wandbc Samples.study Samples.trial [])
    as (a & d & Hcall & Hparams & Hmetric & _ & _ & Hstate & Hdir & Hdist & Hdom).
  exists a, d. split; [exact Hcall|].
  split; [apply Hparams; [reflexivity | discriminate]|].
  split; [exact Hmetric|].
  split; [exact (Hstate eq_refl)|].
  split; [exact (Hdir eq_refl)|].
  split; [exact (Hdist eq_refl)|].
  apply not_elem_of_dom. rewrite Hdom. cbn [study_user_attrs Samples.study].
  rewrite dom_empty_L. set_unfold. intros [[[H|H]|H]|[]]; discriminate H.
Defined.

(** C1, as it is stated, fails on the Weights & Biases callback: the
    sample trial has the user attribute "my_user_attr", and no call of the
    invocation carries it. *)
Lemma trial_user_attrs_not_recorded :
  ~ records_all_fields "value" Samples.study Samples.trial
      (__call__ Samples.wandbc Samples.study Samples.trial []).2.
Proof.
  intros (_ & _ & _ & _ & _ & Hattrs & _).
  destruct (Hattrs "my_user_attr" (VStr "my_user_attr_value") eq_refl)
    as (d & Hin & Hd).
  rewrite call_spec in Hin. cbn in Hin.
  apply elem_of_cons in Hin as [Heq|Hin].
  - injection Heq as ->. rewrite attributes_lookup in Hd. discriminate Hd.
  - apply elem_of_cons in Hin as [Heq|Hin]; [discriminate Heq|].
    by apply elem_of_nil in Hin.
Qed.
End WandbFacts.

(** ** The MLflow callback *)
Module MLflowFacts.
Import MLflowCallback.

Lemma length_substring_le (n : nat) (s : string) :
  (String.length (substring 0 n s) <= n)%nat.
Proof.
  revert s. induction n as [|n IH]; intros [|c s]; cbn; try lia.
  specialize (IH s). lia.
Qed.

Lemma truncate_length (s : string) :
  (String.length (truncate s) <= max_mlflow_tag_length)%nat.
Proof.
  unfold truncate.
  destruct (Nat.ltb_spec max_mlflow_tag_length (String.length s)).
  - apply length_substring_le.
  - done.
Qed.

Lemma truncate_short (s : string) :
  (String.length s <= max_mlflow_tag_length)%nat -> truncate s = s.
Proof.
  intros Hs. unfold truncate.
  destruct (Nat.ltb_spec max_mlflow_tag_length (String.length s)); [lia|done].
Qed.

Section facts.
Context {Distribution : Type}.
Variable str : PyVal Distribution -> string.
Variable str_Distribution : Distribution -> string.
Variable shape_mismatch : M mlflow.State mlflow.MlflowException unit.
Implicit Types (self : Self) (study : Study Distribution)
  (trial : FrozenTrial Distribution) (st : mlflow.State)
  (finished : list (Study Distribution * FrozenTrial Distribution)).

Lemma initialize_experiment_spec self study st :
  initialize_experiment self study st = (Return self, configured self study st).
Proof.
  unfold initialize_experiment, configured.
  destruct (_tracking_uri self); reflexivity.
Qed.

Lemma start_run_accepts nested st :
  nested = true \/ mlflow.active st = [] ->
  mlflow.start_run nested st = (Return tt, mlflow.push (mlflow.new_run st) st).
Proof.
  intros [-> | Hnone]; unfold mlflow.start_run.
  - by destruct (mlflow.active st).
  - by rewrite Hnone.
Qed.

Lemma start_run_refuses st r rest :
  mlflow.active st = r :: rest ->
  mlflow.start_run false st
  = (Raise (mlflow.Exception
              ("Run with UUID " ++ mlflow.run_id r ++ " is already active.")),
     st).
Proof. intros Hact. unfold mlflow.start_run. by rewrite Hact. Qed.

(** What the body of the [with] block does to the run it writes to. *)
Lemma body_spec self name study trial uri' exp done r rest exps :
  _metric_name self = Single name ->
  map_agree (mlflow.params r) (str <$> params trial) ->
  (log_metric shape_mismatch self (Scalar (value trial)) ;;
   log_params str self trial ;;
   set_tags str str_Distribution self study trial)
    (mlflow.mkState uri' exp done (r :: rest) exps)
  = (Return self,
     mlflow.mkState uri' exp done
       (mlflow.mkRunData (mlflow.run_id r) (mlflow.parent_run_id r)
          (dict_update (mlflow.params r) (str <$> params trial))
          (<[name := default nan (value trial)]> (mlflow.metrics r))
          (dict_update (mlflow.tags r)
             (forwarded_tags str str_Distribution self study trial))
        :: rest) exps).
Proof.
  intros Hname Hagree. unfold log_metric, log_params, set_tags. rewrite Hname.
  unfold mbind, M_bind, bind, mret, M_ret.
  unfold mlflow.log_metric, mlflow.log_params, mlflow.set_tags,
    mlflow.on_active_run.
  cbn [mlflow.active mlflow.params mlflow.tracking_uri mlflow.experiment
    mlflow.finished mlflow.experiments].
  by rewrite bool_decide_true.
Qed.

Lemma mlflow_call_spec uri name nest flag study trial st :
  nest = true \/ mlflow.active st = [] ->
  __call__ str str_Distribution shape_mismatch
    (mkSelf uri (Single name) nest flag) study trial st
  = (Return (mkSelf uri (Single name) nest flag),
     mlflow.mkState
       (mlflow.tracking_uri (configured (mkSelf uri (Single name) nest flag) study st))
       (Some (study_name study))
       (mlflow.finished st
          ++ [recorded_run str str_Distribution
                (mkSelf uri (Single name) nest flag) name study trial st])%list
       (mlflow.active st)
       (mlflow.with_experiment (study_name study) (mlflow.experiments st))).
Proof.
  intros Hok. unfold __call__. unfold mbind at 1 2, M_bind, bind.
  rewrite initialize_experiment_spec.
  unfold mlflow.with_run. unfold mbind at 1, M_bind, bind.
  rewrite start_run_accepts by done.
  unfold mlflow.ending_run, mlflow.push, configured. cbn [mlflow.tracking_uri
    mlflow.experiment mlflow.finished mlflow.active mlflow.experiments
    _tracking_uri _nest_trials].
  rewrite (body_spec _ name) by (done || apply map_agree_empty_l).
  unfold mlflow.end_run, recorded_run, mlflow.new_run, mlflow.all_runs, dict_update.
  cbn. rewrite !(right_id_L ∅ (∪)), insert_empty. reflexivity.
Qed.

Lemma forwarded_tags_lookup self study trial k :
  forwarded_tags str str_Distribution self study trial !! k
  = truncate <$> assembled_tags str str_Distribution self study trial !! k.
Proof. unfold forwarded_tags. apply lookup_fmap. Qed.

(** A user attribute of the trial is a tag, under its own name, unless a
    distribution tag or a study attribute takes the name. *)
Lemma assembled_tags_user_attr self study trial k a :
  user_attrs trial !! k = Some a ->
  distribution_tags str_Distribution trial !! k = None ->
  _tag_study_user_attrs self = false \/ study_user_attrs study !! k = None ->
  assembled_tags str str_Distribution self study trial !! k = Some (str a).
Proof.
  intros Ha Hd Hs. unfold assembled_tags, dict_update.
  assert (Hbase : forall base : gmap string string,
    (distribution_tags str_Distribution trial
       ∪ ((str <$> user_attrs trial) ∪ base)) !! k = Some (str a)).
  { intros base. rewrite lookup_union_r by done.
    apply lookup_union_Some_l. by rewrite lookup_fmap, Ha. }
  destruct (_tag_study_user_attrs self); [|apply Hbase].
  destruct Hs as [Hs|Hs]; [done|].
  rewrite lookup_union_r; [apply Hbase|]. by rewrite lookup_fmap, Hs.
Qed.

(** C2. The tags of the run that an invocation records are the assembled
    tags cut to the limit: no tag value is longer than 5000 characters, a
    value within the limit is recorded as it is, a longer one as its first
    5000 characters; and a user attribute of the trial is such a tag. *)
Theorem recorded_tags_within_limit uri name nest flag study trial st :
  nest = true \/ mlflow.active st = [] ->
  exists st' r,
    __call__ str str_Distribution shape_mismatch
      (mkSelf uri (Single name) nest flag) study trial st
    = (Return (mkSelf uri (Single name) nest flag), st')
    /\ mlflow.finished st' = (mlflow.finished st ++ [r])%list
    /\ (forall k v, mlflow.tags r !! k = Some v ->
          (String.length v <= 5000)%nat)
    /\ (forall k raw,
          assembled_tags str str_Distribution
            (mkSelf uri (Single name) nest flag) study trial !! k = Some raw ->
          mlflow.tags r !! k
          = Some (if (5000 <? String.length raw)%nat
                  then substring 0 5000 raw else raw))
    /\ (forall k a,
          user_attrs trial !! k = Some a ->
          distribution_tags str_Distribution trial !! k = None ->
          flag = false \/ study_user_attrs study !! k = None ->
          mlflow.tags r !! k = Some (truncate (str a))
          /\ ((String.length (str a) <= 5000)%nat ->
              mlflow.tags r !! k = Some (str a))).
Proof.
  intros Hok. eexists _, _. split; [by apply mlflow_call_spec|].
  split; [reflexivity|]. cbn [recorded_run mlflow.tags]. split; [|split].
  - intros k v. rewrite forwarded_tags_lookup.
    destruct (assembled_tags _ _ _ _ _ !! k) as [raw|]; [|done].
    intros [= <-]. apply truncate_length.
  - intros k raw Hraw. by rewrite forwarded_tags_lookup, Hraw.
  - intros k a Ha Hd Hs. rewrite forwarded_tags_lookup.
    rewrite (assembled_tags_user_attr _ _ _ _ a) by done.
    split; [done|]. intros Hlen. cbn. f_equal. by apply truncate_short.
Qed.

Lemma invoke_all_nested uri name flag finished : forall st parent rest,
  mlflow.active st = parent :: rest ->
  exists st' children,
    invoke_all str str_Distribution shape_mismatch
      (mkSelf uri (Single name) true flag) finished st
    = (Return (mkSelf uri (Single name) true flag), st')
    /\ mlflow.active st' = parent :: rest
    /\ mlflow.finished st' = (mlflow.finished st ++ children)%list
    /\ Forall2 (fun event r =>
         mlflow.parent_run_id r = Some (mlflow.run_id parent)
         /\ mlflow.params r = str <$> params event.2
         /\ mlflow.metrics r = {[ name := default nan (value event.2) ]})
         finished children.
Proof.
  induction finished as [|[study trial] more IH]; intros st parent rest Hact.
  - exists st, []. split; [done|]. split; [done|].
    split; [by rewrite app_nil_r | constructor].
  - cbn [invoke_all]. unfold mbind, M_bind, bind.
    rewrite mlflow_call_spec by (by left).
    match goal with
    | |- context [invoke_all _ _ _ _ more ?s] =>
        destruct (IH s parent rest Hact) as (st' & children & Hrun & Hact' & Hfin & Hall)
    end.
    eexists st', (_ :: children). split; [exact Hrun|]. split; [exact Hact'|].
    split.
    + rewrite Hfin. cbn [mlflow.finished]. by rewrite <- app_assoc.
    + constructor; [|exact Hall]. unfold recorded_run.
      cbn [mlflow.parent_run_id mlflow.params mlflow.metrics snd].
      by rewrite Hact.
Qed.

(** C3. With the nesting flag set and a parent run active, every trial
    is recorded as a child run: the runs grow by one for each of the n
    trials, so a parent alone gives n + 1 runs, and each child carries the
    parent's id, the trial's parameters and the one configured metric. *)
Theorem nested_trials_are_children uri name flag finished st parent rest :
  mlflow.active st = parent :: rest ->
  exists st' children,
    invoke_all str str_Distribution shape_mismatch
      (mkSelf uri (Single name) true flag) finished st
    = (Return (mkSelf uri (Single name) true flag), st')
    /\ mlflow.all_runs st' = (mlflow.finished st ++ children ++ parent :: rest)%list
    /\ length children = length finished
    /\ length (mlflow.all_runs st')
       = (length (mlflow.all_runs st) + length finished)%nat
    /\ Forall2 (fun event r =>
         mlflow.parent_run_id r = Some (mlflow.run_id parent)
         /\ mlflow.params r = str <$> params event.2
         /\ dom (mlflow.params r) = dom (params event.2)
         /\ mlflow.metrics r = {[ name := default nan (value event.2) ]}
         /\ dom (mlflow.metrics r) = {[ name ]})
         finished children.
Proof.
  intros Hact.
  destruct (invoke_all_nested uri name flag finished st parent rest Hact)
    as (st' & children & Hrun & Hact' & Hfin & Hall).
  exists st', children. split; [exact Hrun|].
  pose proof (Forall2_length _ _ _ Hall) as Hlen.
  unfold mlflow.all_runs. rewrite Hfin, Hact', Hact.
  split; [by rewrite <- app_assoc|]. split; [done|].
  split; [rewrite !length_app; cbn; lia|].
  eapply Forall2_impl; [exact Hall|].
  intros event r (Hparent & Hparams & Hmetrics).
  split; [done|]. split; [done|]. split; [by rewrite Hparams, dom_fmap_L|].
  split; [done|]. by rewrite Hmetrics, dom_singleton_L.
Qed.

(** C4. With the nesting flag off and a run active, the invocation
    raises what the SDK's [start_run] raises, "Run with UUID ... is already
    active."; nothing is caught, no run is started and none is ended. *)
Theorem active_run_without_nesting_raises uri metric flag study trial st r rest :
  mlflow.active st = r :: rest ->
  exists st',
    __call__ str str_Distribution shape_mismatch
      (mkSelf uri metric false flag) study trial st
    = (Raise (mlflow.Exception
                ("Run with UUID " ++ mlflow.run_id r ++ " is already active.")),
       st')
    /\ mlflow.start_run false st'
       = (Raise (mlflow.Exception
                   ("Run with UUID " ++ mlflow.run_id r ++ " is already active.")),
          st')
    /\ mlflow.finished st' = mlflow.finished st
    /\ mlflow.active st' = mlflow.active st.
Proof.
  intros Hact. exists (configured (mkSelf uri metric false flag) study st).
  assert (Hstart : mlflow.start_run false
                     (configured (mkSelf uri metric false flag) study st)
    = (Raise (mlflow.Exception
                ("Run with UUID " ++ mlflow.run_id r ++ " is already active.")),
       configured (mkSelf uri metric false flag) study st)).
  { by apply (start_run_refuses _ r rest). }
  split; [|done].
  unfold __call__. unfold mbind at 1 2, M_bind, bind.
  rewrite initialize_experiment_spec.
  unfold mlflow.with_run. unfold mbind at 1, M_bind, bind.
  cbn [_nest_trials]. by rewrite Hstart.
Qed.

(** Logging to a state with an active run. *)
Lemma log_each_spec named : forall uri' exp done r rest exps,
  log_each named (mlflow.mkState uri' exp done (r :: rest) exps)
  = (Return tt,
     mlflow.mkState uri' exp done
       (mlflow.mkRunData (mlflow.run_id r) (mlflow.parent_run_id r)
          (mlflow.params r) (logged_metrics named (mlflow.metrics r))
          (mlflow.tags r) :: rest) exps).
Proof.
  induction named as [|[k v] more IH]; intros uri' exp done r rest exps.
  - by destruct r.
  - cbn [log_each]. unfold mbind, M_bind, bind.
    unfold mlflow.log_metric, mlflow.on_active_run. cbn [mlflow.active
      mlflow.tracking_uri mlflow.experiment mlflow.finished
      mlflow.experiments].
    by rewrite IH.
Qed.

(** Logging at least one pair leaves a run active, with the metrics of
    the pairs on top of those of the run that was written to. *)
Lemma log_each_active named st :
  named ≠ [] ->
  exists st' r m,
    log_each named st = (Return tt, st')
    /\ mlflow.active_run st' = Some r
    /\ mlflow.metrics r = logged_metrics named m.
Proof.
  destruct named as [|[k v] more]; [done|]. intros _.
  destruct st as [uri' exp done [|r rest] exps].
  - cbn [log_each]. unfold mbind, M_bind, bind.
    unfold mlflow.log_metric, mlflow.on_active_run, mlflow.push.
    cbn [mlflow.active mlflow.tracking_uri mlflow.experiment mlflow.finished
      mlflow.experiments].
    rewrite log_each_spec. eexists _, _, ∅. split; [reflexivity|].
    split; reflexivity.
  - rewrite log_each_spec. eexists _, _, _. split; [reflexivity|].
    split; reflexivity.
Qed.

Lemma logged_metrics_absent (named : list (string * float)) (k : string) :
  forall m : gmap string float,
  (forall j v, named !! j ≠ Some (k, v)) ->
  logged_metrics named m !! k = m !! k.
Proof.
  induction named as [|[k' v'] more IH]; intros m Habs; [done|].
  cbn [logged_metrics fold_left fst snd]. fold (logged_metrics more).
  rewrite IH.
  - apply lookup_insert_ne. intros ->. by apply (Habs 0%nat v').
  - intros j v. apply (Habs (S j) v).
Qed.

(** The last pair with a name decides the metric of that name. *)
Lemma logged_metrics_last (named : list (string * float)) (k : string) (v : float) :
  forall (i : nat) (m : gmap string float),
  named !! i = Some (k, v) ->
  (forall j w, (i < j)%nat -> named !! j ≠ Some (k, w)) ->
  logged_metrics named m !! k = Some v.
Proof.
  induction named as [|[k' v'] more IH]; intros i m Hi Hlast; [done|].
  cbn [logged_metrics fold_left fst snd]. fold (logged_metrics more).
  destruct i as [|i].
  - injection Hi as -> ->. rewrite logged_metrics_absent.
    + apply lookup_insert_eq.
    + intros j w. apply (Hlast (S j) w). lia.
  - apply (IH i); [exact Hi|].
    intros j w Hj. apply (Hlast (S j) w). lia.
Qed.

(** C7, for names that differ. With k pairwise distinct metric names
    and k values, logging the metrics records, at every position, the
    value of the position under the name of the position. *)
Theorem log_metric_distinct_names uri nest flag names values st i name v :
  NoDup names ->
  length names = length values ->
  names !! i = Some name ->
  values !! i = Some v ->
  exists st' r,
    log_metric shape_mismatch (mkSelf uri (Multi names) nest flag)
      (Vector values) st
    = (Return (mkSelf uri (Multi names) nest flag), st')
    /\ mlflow.active_run st' = Some r
    /\ mlflow.metrics r !! name = Some v.
Proof.
  intros Hdistinct _ Hname Hv.
  assert (Hzip : zip names values !! i = Some (name, v)).
  { rewrite lookup_zip_with, Hname. cbn. by rewrite Hv. }
  destruct (log_each_active (zip names values) st)
    as (st' & r & m & Hrun & Hact & Hm).
  { intros Hnil. by rewrite Hnil in Hzip. }
  exists st', r. unfold log_metric. cbn [_metric_name].
  unfold mbind, M_bind, bind. rewrite Hrun. split; [done|]. split; [done|].
  rewrite Hm. apply (logged_metrics_last _ _ _ i); [exact Hzip|].
  intros j w Hj Hjw.
  rewrite lookup_zip_with in Hjw.
  destruct (names !! j) as [n|] eqn:Hnj; [|done]. cbn in Hjw.
  destruct (values !! j); [|done]. cbn in Hjw. injection Hjw as -> _.
  pose proof (NoDup_lookup _ _ _ _ Hdistinct Hname Hnj). lia.
Qed.

(** C8. Given [None], logging the metric returns, and the run written
    to has NaN under the configured metric name. *)
Theorem log_metric_none_records_nan uri name nest flag st :
  exists st' r,
    log_metric shape_mismatch (mkSelf uri (Single name) nest flag)
      (Scalar None) st
    = (Return (mkSelf uri (Single name) nest flag), st')
    /\ mlflow.active_run st' = Some r
    /\ mlflow.metrics r !! name = Some nan
    /\ is_nan nan = true.
Proof.
  unfold log_metric. cbn [_metric_name default].
  unfold mbind, M_bind, bind, mlflow.log_metric, mlflow.on_active_run.
  destruct (mlflow.active st) as [|r rest].
  - eexists _, _. split; [reflexivity|]. split; [reflexivity|].
    split; [apply lookup_insert_eq | reflexivity].
  - eexists _, _. split; [reflexivity|]. split; [reflexivity|].
    split; [apply lookup_insert_eq | reflexivity].
Qed.

(** A float is recorded as it is. *)
Lemma log_metric_records_value uri name nest flag st v :
  exists st' r,
    log_metric shape_mismatch (mkSelf uri (Single name) nest flag)
      (Scalar (Some v)) st
    = (Return (mkSelf uri (Single name) nest flag), st')
    /\ mlflow.active_run st' = Some r
    /\ mlflow.metrics r !! name = Some v.
Proof.
  unfold log_metric. cbn [_metric_name default].
  unfold mbind, M_bind, bind, mlflow.log_metric, mlflow.on_active_run.
  destruct (mlflow.active st) as [|r rest].
  - eexists _, _. split; [reflexivity|]. split; [reflexivity|].
    apply lookup_insert_eq.
  - eexists _, _. split; [reflexivity|]. split; [reflexivity|].
    apply lookup_insert_eq.
Qed.

(** The MLflow callback, too, comes out of an invocation as it went in,
    when the invocation returns. *)
Lemma mlflow_configuration_kept self study trial st :
  (exists st', __call__ str str_Distribution shape_mismatch self study trial st
               = (Return self, st'))
  \/ (exists e st', __call__ str str_Distribution shape_mismatch self study trial st
                    = (Raise e, st')).
Proof.
  unfold __call__. unfold mbind, M_bind, bind.
  rewrite initialize_experiment_spec.
  match goal with
  | |- context [mlflow.with_run ?n ?b ?s] =>
      destruct (mlflow.with_run n b s) as [[a|e] st']; [left|right]
  end.
  - exists st'. reflexivity.
  - exists e, st'. reflexivity.
Qed.
End facts.

Example nan_is_nan : is_nan (default nan None) = true.
Proof. reflexivity. Qed.

(** The user attribute of 6000 characters is recorded as its first
    5000. *)
Lemma recorded_tags_within_limit_witness :
  (false = true \/ mlflow.active Samples.fresh = [])
  /\ exists st' r,
       __call__ Samples.str id Samples.shape_mismatch
         (mkSelf None (Single "value") false false)
         Samples.study Samples.trial_with_long_attr Samples.fresh
       = (Return (mkSelf None (Single "value") false false), st')
       /\ mlflow.finished st' = [r]
       /\ mlflow.tags r !! "my_user_attr"
          = Some (substring 0 5000 Samples.long_str).
Proof.
  split; [by right|].
  destruct (recorded_tags_within_limit Samples.str id Samples.shape_mismatch
              None "value" false false Samples.study
              Samples.trial_with_long_attr Samples.fresh)
    as (st' & r & Hcall & Hfin & _ & Hraw & _); [by right|].
  exists st', r. split; [exact Hcall|]. split; [exact Hfin|].
  rewrite (Hraw "my_user_attr" Samples.long_str); [|vm_compute; reflexivity].
  vm_compute. reflexivity.
Defined.

(** Two trials under the sample parent run make three runs. *)
Lemma nested_trials_are_children_witness :
  mlflow.active Samples.in_parent = [Samples.parent_run]
  /\ exists st' children,
       invoke_all Samples.str id Samples.shape_mismatch
         (mkSelf None (Single "value") true false)
         [(Samples.study, Samples.trial); (Samples.study, Samples.trial)]
         Samples.in_parent
       = (Return (mkSelf None (Single "value") true false), st')
       /\ length children = 2%nat
       /\ length (mlflow.all_runs st') = 3%nat
       /\ Forall (fun r => mlflow.parent_run_id r = Some "0") children.
Proof.
  split; [reflexivity|].
  destruct (nested_trials_are_children Samples.str id Samples.shape_mismatch
              None "value" false
              [(Samples.study, Samples.trial); (Samples.study, Samples.trial)]
              Samples.in_parent Samples.parent_run [] eq_refl)
    as (st' & children & Hrun & _ & Hlen & Hall & Hchildren).
  exists st', children. split; [exact Hrun|]. split; [exact Hlen|].
  split; [exact Hall|].
  clear Hrun Hlen Hall. induction Hchildren as [|event r events rs Hr _ IH].
  - constructor.
  - constructor; [exact (proj1 Hr) | exact IH].
Defined.

(** Under the sample parent run, with the flag off, the invocation
    raises. *)
Lemma active_run_without_nesting_raises_witness :
  mlflow.active Samples.in_parent = [Samples.parent_run]
  /\ exists st',
       __call__ Samples.str id Samples.shape_mismatch
         (mkSelf None (Single "value") false false)
         Samples.study Samples.trial Samples.in_parent
       = (Raise (mlflow.Exception "Run with UUID 0 is already active."), st')
       /\ mlflow.all_runs st' = [Samples.parent_run].
Proof.
  split; [reflexivity|].
  destruct (active_run_without_nesting_raises Samples.str id
              Samples.shape_mismatch None (Single "value") false
              Samples.study Samples.trial Samples.in_parent
              Samples.parent_run [] eq_refl)
    as (st' & Hcall & _ & Hfin & Hact).
  exists st'. split; [exact Hcall|].
  unfold mlflow.all_runs. rewrite Hfin, Hact. reflexivity.
Defined.

(** The two names and values of the test, at the second position. *)
Lemma log_metric_distinct_names_witness :
  NoDup ["my_metric_name1"; "my_metric_name2"]
  /\ length ["my_metric_name1"; "my_metric_name2"]
     = length [3.5%float; 2.75%float]
  /\ exists st' r,
       log_metric Samples.shape_mismatch
         (mkSelf None (Multi ["my_metric_name1"; "my_metric_name2"]) false false)
         (Vector [3.5%float; 2.75%float]) Samples.in_parent
       = (Return (mkSelf None (Multi ["my_metric_name1"; "my_metric_name2"])
                    false false), st')
       /\ mlflow.active_run st' = Some r
       /\ mlflow.metrics r !! "my_metric_name2" = Some 2.75%float.
Proof.
  assert (Hdistinct : NoDup ["my_metric_name1"; "my_metric_name2"]).
  { apply NoDup_cons. split.
    - intros Hin. apply list_elem_of_singleton in Hin. discriminate Hin.
    - apply NoDup_singleton. }
  split; [exact Hdistinct|]. split; [reflexivity|].
  apply (log_metric_distinct_names Samples.shape_mismatch None false false
           ["my_metric_name1"; "my_metric_name2"] [3.5%float; 2.75%float]
           Samples.in_parent 1 "my_metric_name2" 2.75%float).
  - exact Hdistinct.
  - reflexivity.
  - reflexivity.
  - reflexivity.
Defined.

(** C7, as it is stated, fails when a name comes twice: of ["m"; "m"]
    with the values [3.5; 2.75], a run has one value under "m", so that
    no run that logging leaves behind has, at both positions, the value of
    the position under the name of the position. *)
Lemma repeated_metric_name_has_one_value :
  ~ exists st' r,
      log_metric Samples.shape_mismatch
        (mkSelf None (Multi ["m"; "m"]) false false)
        (Vector [3.5%float; 2.75%float]) Samples.in_parent
      = (Return (mkSelf None (Multi ["m"; "m"]) false false), st')
      /\ mlflow.active_run st' = Some r
      /\ forall (i : nat) name v,
           ["m"; "m"] !! i = Some name ->
           [3.5%float; 2.75%float] !! i = Some v ->
           mlflow.metrics r !! name = Some v.
Proof.
  intros (st' & r & _ & _ & Hall).
  pose proof (Hall 0%nat "m" 3.5%float eq_refl eq_refl) as Hfirst.
  pose proof (Hall 1%nat "m" 2.75%float eq_refl eq_refl) as Hsecond.
  rewrite Hfirst in Hsecond.
  apply (f_equal (fun o => match o with
                           | Some f => PrimFloat.eqb 2.75%float f
                           | None => false
                           end)) in Hsecond.
  vm_compute in Hsecond. discriminate Hsecond.
Qed.

(** *** The tests, replayed *)

Example test_study_name :
  exists st' r,
    __call__ Samples.str id Samples.shape_mismatch
      (mkSelf (Some "file:tmp") (Single "value") false false)
      Samples.study Samples.trial Samples.fresh
    = (Return (mkSelf (Some "file:tmp") (Single "value") false false), st')
    /\ mlflow.experiment st' = Some "my_study"
    /\ mlflow.experiments st' = ["my_study"]
    /\ mlflow.finished st' = [r]
    /\ is_Some (mlflow.metrics r !! "value")
    /\ is_Some (mlflow.params r !! "x")
    /\ mlflow.tags r !! "direction" = Some "MINIMIZE"
    /\ mlflow.tags r !! "state" = Some "COMPLETE"
    /\ mlflow.tags r !! "x_distribution"
       = Some "UniformDistribution(high=1.0, low=-1.0)"
    /\ mlflow.tags r !! "my_user_attr" = Some "my_user_attr_value".
Proof.
  eexists _, _. split; [apply mlflow_call_spec; by right|].
  vm_compute. repeat split; eauto.
Qed.

Example test_tag_study_user_attrs (tag_study_user_attrs : bool) :
  exists st' r,
    __call__ Samples.str id Samples.shape_mismatch
      (mkSelf (Some "file:tmp") (Single "value") false tag_study_user_attrs)
      Samples.study_with_attr Samples.trial_with_long_attr Samples.fresh
    = (Return (mkSelf (Some "file:tmp") (Single "value") false
                 tag_study_user_attrs), st')
    /\ mlflow.finished st' = [r]
    /\ mlflow.tags r !! "my_study_attr"
       = if tag_study_user_attrs then Some "a" else None.
Proof.
  eexists _, _. split; [apply mlflow_call_spec; by right|].
  split; [reflexivity|]. destruct tag_study_user_attrs; vm_compute; reflexivity.
Qed.

Example test_log_params :
  exists st' r,
    log_params Samples.str (mkSelf (Some "file:tmp") (Single "my_metric_name")
                              false false)
      Samples.trial_of_log_params Samples.in_parent
    = (Return (mkSelf (Some "file:tmp") (Single "my_metric_name") false false),
       st')
    /\ mlflow.active_run st' = Some r
    /\ mlflow.params r !! "my_param1" = Some "a"
    /\ mlflow.params r !! "my_param2" = Some "5".
Proof.
  eexists _, _. split; [vm_compute; reflexivity|]. vm_compute. repeat split.
Qed.
End MLflowFacts.

(** ** Splitting at a separator *)
Module SplitFacts.

Lemma split_cons_sep (sep : ascii) (s : string) :
  split sep (String sep s) = EmptyString :: split sep s.
Proof. cbn. by rewrite Ascii.eqb_refl. Qed.

Lemma split_cons_other (sep c : ascii) (s : string) :
  c ≠ sep ->
  split sep (String c s)
  = match split sep s with
    | [] => [String c EmptyString]
    | w :: ws => String c w :: ws
    end.
Proof.
  intros Hc. cbn. destruct (Ascii.eqb_spec c sep) as [Heq|_]; [by destruct Hc|done].
Qed.

Lemma split_not_nil (sep : ascii) (s : string) : split sep s ≠ [].
Proof.
  destruct s as [|c s]; [done|].
  destruct (decide (c = sep)) as [->|Hc].
  - by rewrite split_cons_sep.
  - rewrite split_cons_other by done. by destruct (split sep s).
Qed.

Lemma concat_cons (sep w : string) (ws : list string) :
  ws ≠ [] -> String.concat sep (w :: ws) = w ++ sep ++ String.concat sep ws.
Proof. by destruct ws. Qed.

(** X1. Joining the pieces of [s.split(sep)] with the separator gives
    [s] back. *)
Theorem join_split (sep : ascii) (s : string) :
  String.concat (String sep EmptyString) (split sep s) = s.
Proof.
  induction s as [|c s IH]; [done|].
  pose proof (split_not_nil sep s) as Hne.
  destruct (decide (c = sep)) as [->|Hc].
  - rewrite split_cons_sep, concat_cons by done. by rewrite IH.
  - rewrite split_cons_other by done.
    destruct (split sep s) as [|w ws]; [done|].
    destruct ws as [|w' ws].
    + cbn in *. by rewrite IH.
    + rewrite concat_cons by done. rewrite concat_cons in IH by done.
      rewrite <- IH. reflexivity.
Qed.

Lemma split_pieces_clean (sep : ascii) (s : string) :
  Forall (fun piece => has_char sep piece = false) (split sep s).
Proof.
  induction s as [|c s IH]; [by repeat constructor|].
  destruct (decide (c = sep)) as [->|Hc].
  - rewrite split_cons_sep. by constructor.
  - rewrite split_cons_other by done.
    assert (Hc' : Ascii.eqb c sep = false) by by apply Ascii.eqb_neq.
    destruct (split sep s) as [|w ws].
    + constructor; [|constructor]. cbn. by rewrite Hc'.
    + inversion IH as [|? ? Hw Hws]; subst.
      constructor; [|done]. cbn. by rewrite Hc'.
Qed.

Lemma last_item_cons (w : string) (ws : list string) :
  ws ≠ [] -> last_item (w :: ws) = last_item ws.
Proof. by destruct ws. Qed.

(** Either there is one piece, the string itself, or the string ends in
    the separator and the last piece. *)
Lemma split_shape (sep : ascii) (s : string) :
  split sep s = [s]
  \/ exists w ws q,
       split sep s = w :: ws /\ ws ≠ []
       /\ s = q ++ String sep (last_item ws).
Proof.
  induction s as [|c s IH]; [by left|].
  destruct (decide (c = sep)) as [->|Hc].
  - right. rewrite split_cons_sep.
    destruct IH as [Hone|(w & ws & q & Hsplit & Hne & Hs)].
    + exists EmptyString, [s], EmptyString. by rewrite Hone.
    + exists EmptyString, (w :: ws), (String sep q). rewrite Hsplit.
      split; [done|]. split; [done|].
      rewrite last_item_cons by done. rewrite Hs at 1. reflexivity.
  - rewrite split_cons_other by done.
    destruct IH as [Hone|(w & ws & q & Hsplit & Hne & Hs)].
    + left. by rewrite Hone.
    + right. exists (String c w), ws, (String c q). rewrite Hsplit.
      split; [done|]. split; [done|]. rewrite Hs at 1. reflexivity.
Qed.

(** X2. What [str(x).split(".")[-1]] gives has no dot, and it is the
    whole string or what follows a dot at the end of the string. *)
Theorem split_dot_last_is_tail (s : string) :
  has_char "." (split_dot_last s) = false
  /\ (split_dot_last s = s
      \/ exists q, s = q ++ "." ++ split_dot_last s).
Proof.
  unfold split_dot_last. split.
  - pose proof (split_pieces_clean "." s) as Hclean.
    pose proof (split_not_nil "." s) as Hne.
    induction Hclean as [|w ws Hw _ IH]; [done|].
    destruct ws as [|w' ws]; [exact Hw|].
    rewrite last_item_cons by done. by apply IH.
  - destruct (split_shape "." s) as [Hone|(w & ws & q & Hsplit & Hne & Hs)].
    + left. by rewrite Hone.
    + right. exists q. rewrite Hsplit, last_item_cons by done. exact Hs.
Qed.
End SplitFacts.

(** ** Sessions of the Weights & Biases callback *)
Module WandbSessions.
Import WeightsAndBiasesCallback TwoCallbacks.

Section facts.
Context {Distribution : Type}.
Implicit Types (self a b : Self) (study : Study Distribution)
  (trial : FrozenTrial Distribution) (calls : list (wandb.Call Distribution))
  (finished before after : list (Study Distribution * FrozenTrial Distribution)).

Lemma session_trace metric_name project group entity name job_type mode
    finished calls :
  session true metric_name project group entity name job_type mode finished calls
  = (Return (mkSelf metric_name project group entity name job_type mode),
     (calls ++ wandb.Init project group entity name job_type mode true
        :: flat_map (emitted (mkSelf metric_name project group entity name
                                job_type mode)) finished)%list).
Proof.
  unfold session. unfold mbind, M_bind, bind.
  rewrite WandbFacts.init_spec, WandbFacts.invoke_all_spec.
  by rewrite <- app_assoc.
Qed.

Lemma steps_emitted self finished :
  steps (flat_map (emitted self) finished) = (fun event => number event.2) <$> finished.
Proof.
  induction finished as [|event rest IH]; [done|].
  cbn [flat_map emitted app fmap list_fmap]. unfold steps in *.
  cbn [flat_map app]. by rewrite IH.
Qed.

Lemma length_emitted self finished :
  length (flat_map (emitted self) finished) = (2 * length finished)%nat.
Proof.
  induction finished as [|event rest IH]; [done|].
  cbn [flat_map emitted app length]. rewrite IH. lia.
Qed.

(** X3. When [import wandb] had failed, construction raises
    [ImportError] before any call into the SDK, and so does the session
    built on it, whatever the trials: the calls are as they were. *)
Theorem no_call_without_wandb metric_name project group entity name job_type
    mode finished calls :
  __init__ false metric_name project group entity name job_type mode calls
  = (Raise ImportError, calls)
  /\ session false metric_name project group entity name job_type mode
       finished calls
     = (Raise ImportError, calls).
Proof. split; reflexivity. Qed.

(** X4. A session over n finished trials adds one call for the run and
    two for each trial, and the steps of its [log] calls are the numbers of
    the trials, in the order of the invocations: none is reordered, merged
    or left out. *)
Theorem session_steps_follow_trials metric_name project group entity name
    job_type mode finished calls :
  exists trace,
    session true metric_name project group entity name job_type mode
      finished calls
    = (Return (mkSelf metric_name project group entity name job_type mode),
       (calls ++ trace)%list)
    /\ length trace = S (2 * length finished)
    /\ steps trace = (fun event => number event.2) <$> finished.
Proof.
  eexists. split; [apply session_trace|]. split.
  - cbn [length]. by rewrite length_emitted.
  - unfold steps. cbn [flat_map app]. apply steps_emitted.
Qed.

(** X5. The logged dictionary has one entry more than the trial has
    parameters, unless a parameter has the metric name: then it has as
    many, one entry having given way to the objective value. It is never
    empty. *)
Theorem logged_size self trial :
  size (logged self trial)
  = match params trial !! _metric_name self with
    | Some _ => size (params trial)
    | None => S (size (params trial))
    end
  /\ logged self trial ≠ ∅.
Proof.
  unfold logged. split.
  - rewrite map_size_insert. by destruct (params trial !! _metric_name self).
  - apply insert_non_empty.
Qed.

(** X6. A trial without objective value is logged with [None] under the
    metric name, and [None] stands there for no other trial. *)
Theorem none_logged_iff_no_value self trial :
  logged self trial !! _metric_name self = Some VNone <-> value trial = None.
Proof.
  rewrite WandbFacts.logged_lookup, decide_True by done.
  destruct (value trial); cbn; split; intros H; done.
Qed.

(** X7. The callback keeps no handle on its run. When a second callback
    is constructed, its [wandb.init] starts a second run, and what the first
    callback logs from then on is delivered to that run, under the first
    callback's metric name; the first run keeps what it had received. *)
Theorem later_construction_takes_over a b before after :
  exists trace,
    second_construction a b before after [] = (Return a, trace)
    /\ wandb.runs trace
       = [wandb.mkRun (init_call b) (flat_map (emitted a) after);
          wandb.mkRun (init_call a) (flat_map (emitted a) before)].
Proof.
  eexists. split.
  - unfold second_construction, construct. unfold mbind, M_bind, bind.
    rewrite WandbFacts.init_spec, WandbFacts.invoke_all_spec,
      WandbFacts.init_spec, WandbFacts.invoke_all_spec.
    destruct a. reflexivity.
  - destruct a, b. cbn [_metric_name _project_name _group_name _entity_name
      _run_name _job_type _mode app].
    unfold wandb.runs. cbn [fold_left wandb.deliver wandb.is_init].
    rewrite !fold_left_app, WandbFacts.deliver_emitted.
    cbn [fold_left wandb.deliver wandb.is_init].
    rewrite WandbFacts.deliver_emitted. reflexivity.
Qed.
End facts.
End WandbSessions.

(** ** Runs of the MLflow callback, as the tests look at them *)
Module MLflowRuns.
Import MLflowCallback.

Section facts.
Context {Distribution : Type}.
Variable str : PyVal Distribution -> string.
Variable str_Distribution : Distribution -> string.
Variable shape_mismatch : M mlflow.State mlflow.MlflowException unit.
Implicit Types (self : Self) (study : Study Distribution)
  (trial : FrozenTrial Distribution) (st : mlflow.State)
  (trials : list (FrozenTrial Distribution)).

Lemma invoke_all_flat uri name flag study trials : forall st,
  mlflow.active st = [] ->
  exists st' rs,
    invoke_all str str_Distribution shape_mismatch
      (mkSelf uri (Single name) false flag) ((fun trial => (study, trial)) <$> trials) st
    = (Return (mkSelf uri (Single name) false flag), st')
    /\ mlflow.active st' = []
    /\ mlflow.finished st' = (mlflow.finished st ++ rs)%list
    /\ mlflow.experiment st'
       = match trials with
         | [] => mlflow.experiment st
         | _ :: _ => Some (study_name study)
         end
    /\ Forall2 (fun trial r =>
         mlflow.parent_run_id r = None
         /\ mlflow.params r = str <$> params trial
         /\ mlflow.metrics r = {[ name := default nan (value trial) ]}
         /\ mlflow.tags r
            = forwarded_tags str str_Distribution
                (mkSelf uri (Single name) false flag) study trial)
         trials rs.
Proof.
  induction trials as [|trial more IH]; intros st Hact.
  - exists st, []. split; [done|]. split; [done|].
    split; [by rewrite app_nil_r|]. split; [done|constructor].
  - cbn [fmap list_fmap invoke_all]. unfold mbind, M_bind, bind.
    rewrite MLflowFacts.mlflow_call_spec by (by right).
    match goal with
    | |- context [invoke_all _ _ _ _ _ ?s] =>
        destruct (IH s Hact) as (st' & rs & Hrun & Hact' & Hfin & Hexp & Hall)
    end.
    eexists st', (_ :: rs). split; [exact Hrun|]. split; [exact Hact'|].
    split; [rewrite Hfin; cbn [mlflow.finished]; by rewrite <- app_assoc|].
    split.
    + rewrite Hexp. by destruct more.
    + constructor; [|exact Hall]. unfold recorded_run.
      cbn [mlflow.parent_run_id mlflow.params mlflow.metrics mlflow.tags].
      by rewrite Hact.
Qed.

(** X8. With no run active and the nesting flag off, the n trials of a
    study leave n further runs behind, in order, none of them a child and
    none still active; each has the trial's parameters as strings, the one
    metric and the forwarded tags; and the experiment is named after the
    study. *)
Theorem one_run_per_trial uri name flag study trials st :
  mlflow.active st = [] ->
  exists st' rs,
    invoke_all str str_Distribution shape_mismatch
      (mkSelf uri (Single name) false flag) ((fun trial => (study, trial)) <$> trials) st
    = (Return (mkSelf uri (Single name) false flag), st')
    /\ mlflow.all_runs st' = (mlflow.all_runs st ++ rs)%list
    /\ length rs = length trials
    /\ mlflow.active st' = []
    /\ mlflow.experiment st'
       = match trials with
         | [] => mlflow.experiment st
         | _ :: _ => Some (study_name study)
         end
    /\ Forall2 (fun trial r =>
         mlflow.parent_run_id r = None
         /\ mlflow.params r = str <$> params trial
         /\ mlflow.metrics r = {[ name := default nan (value trial) ]}
         /\ mlflow.tags r
            = forwarded_tags str str_Distribution
                (mkSelf uri (Single name) false flag) study trial)
         trials rs.
Proof.
  intros Hact.
  destruct (invoke_all_flat uri name flag study trials st Hact)
    as (st' & rs & Hrun & Hact' & Hfin & Hexp & Hall).
  exists st', rs. split; [exact Hrun|].
  unfold mlflow.all_runs. rewrite Hfin, Hact', Hact, !app_nil_r.
  split; [done|]. split; [symmetry; by eapply Forall2_length|].
  split; [done|]. split; [exact Hexp | exact Hall].
Qed.

(** X9. A user attribute of the study, under a name that no other tag
    has, is a tag of the recorded run when the callback was built with
    [tag_study_user_attrs], cut to the limit; it is no tag of the run
    otherwise. *)
Theorem study_attr_tagged_by_flag uri name nest flag study trial st k v :
  nest = true \/ mlflow.active st = [] ->
  study_user_attrs study !! k = Some v ->
  user_attrs trial !! k = None ->
  distribution_tags str_Distribution trial !! k = None ->
  k ≠ "state" -> k ≠ "direction" ->
  exists st' r,
    __call__ str str_Distribution shape_mismatch
      (mkSelf uri (Single name) nest flag) study trial st
    = (Return (mkSelf uri (Single name) nest flag), st')
    /\ mlflow.finished st' = (mlflow.finished st ++ [r])%list
    /\ mlflow.tags r !! k = if flag then Some (truncate (str v)) else None.
Proof.
  intros Hok Hv Hattr Hdist Hstate Hdir. eexists _, _.
  split; [by apply MLflowFacts.mlflow_call_spec|]. split; [reflexivity|].
  cbn [recorded_run mlflow.tags]. rewrite MLflowFacts.forwarded_tags_lookup.
  unfold assembled_tags, dict_update. cbn [_tag_study_user_attrs].
  assert (Hrest : (distribution_tags str_Distribution trial
            ∪ ((str <$> user_attrs trial)
               ∪ <["direction" := split_dot_last (str_StudyDirection (direction study))]>
                   (<["state" := split_dot_last (str_TrialState (state trial))]> ∅)))
          !! k = None).
  { apply lookup_union_None. split; [done|]. apply lookup_union_None.
    split; [by rewrite lookup_fmap, Hattr|].
    by rewrite !lookup_insert_ne, lookup_empty. }
  destruct flag.
  - erewrite lookup_union_Some_l; [done|]. by rewrite lookup_fmap, Hv.
  - by rewrite Hrest.
Qed.


(** X11. Under an active run, [log_metric] with one name and a float
    puts the float under the name in that run, keeps the other metrics,
    the params and the tags, and starts or ends no run. *)
Theorem log_metric_writes_value uri name nest flag v st r rest :
  mlflow.active st = r :: rest ->
  exists r',
    log_metric shape_mismatch (mkSelf uri (Single name) nest flag)
      (Scalar (Some v)) st
    = (Return (mkSelf uri (Single name) nest flag),
       mlflow.mkState (mlflow.tracking_uri st) (mlflow.experiment st)
         (mlflow.finished st) (r' :: rest) (mlflow.experiments st))
    /\ mlflow.run_id r' = mlflow.run_id r
    /\ mlflow.metrics r' !! name = Some v
    /\ (forall k, k ≠ name -> mlflow.metrics r' !! k = mlflow.metrics r !! k)
    /\ mlflow.params r' = mlflow.params r
    /\ mlflow.tags r' = mlflow.tags r.
Proof.
  intros Hact. destruct st as [uri' exp done act exps]. cbn in Hact. subst act.
  eexists. split; [reflexivity|]. cbn [mlflow.run_id mlflow.params
    mlflow.metrics mlflow.tags default]. split; [done|].
  split; [apply lookup_insert_eq|]. split; [|done].
  intros k Hk. by apply lookup_insert_ne.
Qed.

(** X12. [initialize_experiment] sets the experiment named after the
    study, creating it when the store has none of that name and keeping
    every experiment there is; it touches no run. Done again for the same
    study it changes nothing, and done for another study the store has the
    experiments of both. *)
Theorem initialize_experiment_again self study study' st :
  mlflow.experiment (initialize_experiment self study st).2
  = Some (study_name study)
  /\ mlflow.experiments (initialize_experiment self study st).2
     = (if bool_decide (study_name study ∈ mlflow.experiments st)
        then mlflow.experiments st
        else mlflow.experiments st ++ [study_name study])%list
  /\ mlflow.all_runs (initialize_experiment self study st).2 = mlflow.all_runs st
  /\ (initialize_experiment self study ≫= fun _ =>
        initialize_experiment self study) st
     = initialize_experiment self study st
  /\ study_name study
     ∈ mlflow.experiments
         ((initialize_experiment self study ≫= fun _ =>
             initialize_experiment self study') st).2
  /\ study_name study'
     ∈ mlflow.experiments
         ((initialize_experiment self study ≫= fun _ =>
             initialize_experiment self study') st).2.
Proof.
  assert (Hin : forall name known, name ∈ mlflow.with_experiment name known).
  { intros name known. unfold mlflow.with_experiment. case_bool_decide; [done|].
    apply elem_of_app. right. apply list_elem_of_here. }
  assert (Hkeep : forall name other known,
    name ∈ known -> name ∈ mlflow.with_experiment other known).
  { intros name other known Hname. unfold mlflow.with_experiment.
    case_bool_decide; [done|]. apply elem_of_app. by left. }
  unfold mbind, M_bind, bind.
  rewrite !MLflowFacts.initialize_experiment_spec.
  split; [done|]. split; [done|]. split; [done|].
  unfold configured.
  cbn [snd mlflow.tracking_uri mlflow.experiment mlflow.finished
    mlflow.active mlflow.experiments].
  split; [|split].
  - f_equal. f_equal.
    + by destruct (_tracking_uri self).
    + unfold mlflow.with_experiment at 1. by rewrite bool_decide_true.
  - apply Hkeep, Hin.
  - apply Hin.
Qed.
End facts.

(** Two sample trials, with nothing recorded before. *)
Lemma one_run_per_trial_witness :
  mlflow.active Samples.fresh = []
  /\ exists st' rs,
       invoke_all Samples.str id Samples.shape_mismatch
         (mkSelf None (Single "value") false false)
         ((fun trial => (Samples.study, trial)) <$> [Samples.trial; Samples.trial])
         Samples.fresh
       = (Return (mkSelf None (Single "value") false false), st')
       /\ mlflow.all_runs st' = rs
       /\ length rs = 2%nat
       /\ mlflow.experiment st' = Some "my_study".
Proof.
  split; [reflexivity|].
  destruct (one_run_per_trial Samples.str id Samples.shape_mismatch None
              "value" false Samples.study [Samples.trial; Samples.trial]
              Samples.fresh eq_refl)
    as (st' & rs & Hrun & Hall & Hlen & _ & Hexp & _).
  exists st', rs. split; [exact Hrun|]. split; [exact Hall|].
  split; [exact Hlen | exact Hexp].
Defined.

(** The study attribute of [test_tag_study_user_attrs], with the flag
    set. *)
Lemma study_attr_tagged_by_flag_witness :
  study_user_attrs Samples.study_with_attr !! "my_study_attr" = Some (VStr "a")
  /\ exists st' r,
       __call__ Samples.str id Samples.shape_mismatch
         (mkSelf None (Single "value") false true)
         Samples.study_with_attr Samples.trial Samples.fresh
       = (Return (mkSelf None (Single "value") false true), st')
       /\ mlflow.finished st' = [r]
       /\ mlflow.tags r !! "my_study_attr" = Some "a".
Proof.
  split; [reflexivity|].
  destruct (study_attr_tagged_by_flag Samples.str id Samples.shape_mismatch
              None "value" false true Samples.study_with_attr Samples.trial
              Samples.fresh "my_study_attr" (VStr "a"))
    as (st' & r & Hcall & Hfin & Htag).
  - by right.
  - reflexivity.
  - reflexivity.
  - vm_compute. reflexivity.
  - discriminate.
  - discriminate.
  - exists st', r. split; [exact Hcall|]. split; [exact Hfin|].
    rewrite Htag. vm_compute. reflexivity.
Defined.


(** A value under the sample parent run. *)
Lemma log_metric_writes_value_witness :
  mlflow.active Samples.in_parent = [Samples.parent_run]
  /\ exists r',
       log_metric Samples.shape_mismatch
         (mkSelf None (Single "my_metric_name") false false)
         (Scalar (Some 3.5%float)) Samples.in_parent
       = (Return (mkSelf None (Single "my_metric_name") false false),
          mlflow.mkState None (Some "my_study") [] [r'] ["my_study"])
       /\ mlflow.metrics r' !! "my_metric_name" = Some 3.5%float.
Proof.
  split; [reflexivity|].
  destruct (log_metric_writes_value Samples.shape_mismatch None
              "my_metric_name" false false 3.5%float Samples.in_parent
              Samples.parent_run [] eq_refl)
    as (r' & Hrun & _ & Hmetric & _).
  exists r'. split; [exact Hrun | exact Hmetric].
Defined.
End MLflowRuns.

(** ** The long user attribute of the truncation test *)
Module LongAttribute.
Import test_mlflow.

Lemma length_append (s t : string) :
  String.length (s ++ t) = (String.length s + String.length t)%nat.
Proof.
  induction s as [|c s IH]; [done|].
  change (S (String.length (s ++ t)) = S (String.length s + String.length t)).
  by rewrite IH.
Qed.

Lemma pretty_N_go_length (x : N) : forall s,
  (String.length s <= String.length (pretty_N_go x s))%nat.
Proof.
  induction (N.lt_wf_0 x) as [x _ IH]; intros s.
  destruct (decide (x = 0)%N) as [->|Hx]; [by rewrite pretty_N_go_0|].
  rewrite pretty_N_go_step by lia.
  etrans; [|apply IH; apply N.div_lt; lia]. cbn. lia.
Qed.

Lemma pretty_nat_not_empty (n : nat) : (1 <= String.length (pretty n))%nat.
Proof.
  unfold pretty, pretty_nat, pretty, pretty_N.
  destruct (decide (N.of_nat n = 0)%N) as [_|Hn]; [done|].
  rewrite pretty_N_go_step by lia.
  etrans; [|apply pretty_N_go_length]. cbn. lia.
Qed.

Lemma length_join_decimals (l : list nat) : forall x,
  (3 * length (x :: l)
   <= String.length (String.concat ", " (pretty <$> (x :: l))) + 2)%nat.
Proof.
  induction l as [|y l IH]; intros x.
  - pose proof (pretty_nat_not_empty x). cbn. lia.
  - specialize (IH y). pose proof (pretty_nat_not_empty x).
    cbn [fmap list_fmap] in *. rewrite SplitFacts.concat_cons by done.
    rewrite !length_append. cbn [length String.length] in *. lia.
Qed.

(** X13. [str(list(range(n)))] has at least three characters for each of
    its n >= 1 numbers, and the [long_str] that the objective of the
    truncation test sets as user attribute has 28890 characters, more than
    the limit of 5000. *)
Theorem long_str_exceeds_limit :
  (forall n : nat, (3 * S n <= String.length (str_list (range (S n))))%nat)
  /\ N.of_nat (String.length long_str) = 28890%N
  /\ (MLflowCallback.max_mlflow_tag_length <? String.length long_str)%nat = true.
Proof.
  split; [|split; vm_compute; reflexivity].
  intros n. unfold str_list, range. cbn [seq].
  pose proof (length_join_decimals (seq 1 n) 0) as Hlen.
  rewrite !length_append. cbn [String.length length] in *.
  rewrite length_seq in Hlen. lia.
Qed.
End LongAttribute.

(** ** What the two adapters record *)
Module BothAdapters.

Lemma append_inj_r (u s t : string) : s ++ u = t ++ u -> s = t.
Proof.
  revert t. induction s as [|c s IH]; intros [|c' t] Heq.
  - done.
  - apply (f_equal String.length) in Heq.
    rewrite !LongAttribute.length_append in Heq. cbn in Heq. lia.
  - apply (f_equal String.length) in Heq.
    rewrite !LongAttribute.length_append in Heq. cbn in Heq. lia.
  - change (String c (s ++ u) = String c' (t ++ u)) in Heq.
    injection Heq as -> Heq. f_equal. by apply IH.
Qed.

Lemma short_is_kept (s : string) :
  (String.length s <=? MLflowCallback.max_mlflow_tag_length)%nat = true ->
  MLflowCallback.truncate s = s.
Proof. intros Hs. apply MLflowFacts.truncate_short. by apply Nat.leb_le. Qed.

Section facts.
Context {Distribution : Type}.
Variable str : PyVal Distribution -> string.
Variable str_Distribution : Distribution -> string.
Variable shape_mismatch : M mlflow.State mlflow.MlflowException unit.
Implicit Types (study : Study Distribution) (trial : FrozenTrial Distribution)
  (st : mlflow.State).

Lemma distribution_tags_lookup trial p d :
  distributions trial !! p = Some d ->
  MLflowCallback.distribution_tags str_Distribution trial !! (p ++ "_distribution")
  = Some (str_Distribution d).
Proof.
  intros Hp. unfold MLflowCallback.distribution_tags.
  apply elem_of_list_to_map_1.
  - assert (Hkeys : forall l : list (string * Distribution),
      ((fun kv => (kv.1 ++ "_distribution", str_Distribution kv.2)) <$> l).*1
      = (fun k => k ++ "_distribution") <$> l.*1).
    { induction l as [|kv l IH]; [done|]. cbn. by rewrite <- IH. }
    assert (Hinj : Inj (=) (=) (fun k : string => k ++ "_distribution")).
    { intros s t. apply append_inj_r. }
    rewrite Hkeys. apply (NoDup_fmap_2 _), NoDup_fst_map_to_list.
  - apply (list_elem_of_fmap_2' _ _ (p, d)); [|done].
    by apply elem_of_map_to_list.
Qed.

Lemma assembled_tags_study_attr self study trial k v :
  MLflowCallback._tag_study_user_attrs self = true ->
  study_user_attrs study !! k = Some v ->
  MLflowCallback.assembled_tags str str_Distribution self study trial !! k
  = Some (str v).
Proof.
  intros Hflag Hv. unfold MLflowCallback.assembled_tags, dict_update.
  rewrite Hflag. apply lookup_union_Some_l. by rewrite lookup_fmap, Hv.
Qed.

(** A key that the study's attributes do not take is looked up in the
    tags below them. *)
Lemma assembled_tags_below_study self study trial k :
  MLflowCallback._tag_study_user_attrs self = false
  \/ study_user_attrs study !! k = None ->
  MLflowCallback.assembled_tags str str_Distribution self study trial !! k
  = (MLflowCallback.distribution_tags str_Distribution trial
       ∪ ((str <$> user_attrs trial)
          ∪ <["direction" := split_dot_last (str_StudyDirection (direction study))]>
              (<["state" := split_dot_last (str_TrialState (state trial))]> ∅)))
      !! k.
Proof.
  intros Hs. unfold MLflowCallback.assembled_tags, dict_update.
  destruct (MLflowCallback._tag_study_user_attrs self); [|done].
  destruct Hs as [Hs|Hs]; [done|].
  rewrite lookup_union_r; [done|]. by rewrite lookup_fmap, Hs.
Qed.

(** C1, as the adapters have it. One invocation of an adapter's call
    operation records the trial and the study as follows.

    The Weights & Biases callback issues one config update and one log
    call. The log carries every parameter whose name is not the metric
    name, and the objective value under the metric name, at the step of
    the trial's number. The config update carries every user attribute of
    the study, and the state, the direction and the distributions under
    "trial_state", "direction" and "distributions" where no study user
    attribute has that name. Nothing else is sent: the user attributes of
    the trial are not.

    The MLflow callback with one metric name, when the SDK lets the run
    start, records one run. Its params are the trial's parameters, as
    strings; its one metric is the objective value under the metric name,
    NaN for no value. Its tags, each cut to 5000 characters, are the
    study's user attributes when the callback tags them, one
    [<name>_distribution] for each parameter, the trial's user attributes,
    and the state and the direction under "state" and "direction"; where
    two of them have one name, the earlier in this list is the tag. *)
Theorem adapters_record_fields :
  (forall (self : WeightsAndBiasesCallback.Self) study trial calls,
     exists a d,
       WeightsAndBiasesCallback.__call__ self study trial calls
       = (Return self,
          (calls ++ [wandb.ConfigUpdate a; wandb.Log d (number trial)])%list)
       /\ (forall k v, params trial !! k = Some v ->
             k ≠ WeightsAndBiasesCallback._metric_name self ->
             d !! k = Some v)
       /\ d !! WeightsAndBiasesCallback._metric_name self
          = Some (of_optional_float (value trial))
       /\ dom d = {[ WeightsAndBiasesCallback._metric_name self ]}
                  ∪ dom (params trial)
       /\ (forall k v, study_user_attrs study !! k = Some v -> a !! k = Some v)
       /\ (study_user_attrs study !! "trial_state" = None ->
             a !! "trial_state"
             = Some (VStr (split_dot_last (str_TrialState (state trial)))))
       /\ (study_user_attrs study !! "direction" = None ->
             a !! "direction"
             = Some (VStr (split_dot_last (str_StudyDirection (direction study)))))
       /\ (study_user_attrs study !! "distributions" = None ->
             a !! "distributions" = Some (VDistributions (distributions trial)))
       /\ dom a = {[ "direction"; "trial_state"; "distributions" ]}
                  ∪ dom (study_user_attrs study))
  /\ (forall uri name nest flag study trial st,
        nest = true \/ mlflow.active st = [] ->
        exists st' r,
          MLflowCallback.__call__ str str_Distribution shape_mismatch
            (MLflowCallback.mkSelf uri (MLflowCallback.Single name) nest flag)
            study trial st
          = (Return (MLflowCallback.mkSelf uri (MLflowCallback.Single name)
                       nest flag), st')
          /\ mlflow.finished st' = (mlflow.finished st ++ [r])%list
          /\ (forall k v, params trial !! k = Some v ->
                mlflow.params r !! k = Some (str v))
          /\ dom (mlflow.params r) = dom (params trial)
          /\ mlflow.metrics r = {[ name := default nan (value trial) ]}
          /\ (forall k v,
                flag = true ->
                study_user_attrs study !! k = Some v ->
                mlflow.tags r !! k = Some (MLflowCallback.truncate (str v)))
          /\ (forall p d,
                distributions trial !! p = Some d ->
                flag = false
                \/ study_user_attrs study !! (p ++ "_distribution") = None ->
                mlflow.tags r !! (p ++ "_distribution")
                = Some (MLflowCallback.truncate (str_Distribution d)))
          /\ (forall k v,
                user_attrs trial !! k = Some v ->
                MLflowCallback.distribution_tags str_Distribution trial !! k
                = None ->
                flag = false \/ study_user_attrs study !! k = None ->
                mlflow.tags r !! k = Some (MLflowCallback.truncate (str v)))
          /\ (user_attrs trial !! "state" = None ->
              MLflowCallback.distribution_tags str_Distribution trial !! "state"
              = None ->
              flag = false \/ study_user_attrs study !! "state" = None ->
              mlflow.tags r !! "state"
              = Some (split_dot_last (str_TrialState (state trial))))
          /\ (user_attrs trial !! "direction" = None ->
              MLflowCallback.distribution_tags str_Distribution trial
                !! "direction" = None ->
              flag = false \/ study_user_attrs study !! "direction" = None ->
              mlflow.tags r !! "direction"
              = Some (split_dot_last (str_StudyDirection (direction study))))).
Proof.
  split; [intros self study trial calls; apply WandbFacts.call_records_fields|].
  intros uri name nest flag study trial st Hok. eexists _, _.
  split; [by apply MLflowFacts.mlflow_call_spec|]. split; [reflexivity|].
  cbn [MLflowCallback.recorded_run mlflow.params mlflow.metrics mlflow.tags].
  split; [intros k v Hk; by rewrite lookup_fmap, Hk|].
  split; [apply dom_fmap_L|]. split; [done|].
  split; [|split; [|split; [|split]]].
  - intros k v -> Hv. rewrite MLflowFacts.forwarded_tags_lookup.
    by rewrite (assembled_tags_study_attr _ _ _ _ v).
  - intros p d Hp Hs. rewrite MLflowFacts.forwarded_tags_lookup.
    rewrite assembled_tags_below_study by done.
    erewrite lookup_union_Some_l; [done|]. by apply distribution_tags_lookup.
  - intros k v Hv Hd Hs. rewrite MLflowFacts.forwarded_tags_lookup.
    by rewrite (MLflowFacts.assembled_tags_user_attr _ _ _ _ _ _ v).
  - intros Hu Hd Hs. rewrite MLflowFacts.forwarded_tags_lookup.
    rewrite assembled_tags_below_study by done.
    rewrite lookup_union_r by done.
    rewrite lookup_union_r by (by rewrite lookup_fmap, Hu).
    rewrite lookup_insert_ne by done. rewrite lookup_insert_eq. cbn.
    f_equal. apply short_is_kept. by destruct (state trial).
  - intros Hu Hd Hs. rewrite MLflowFacts.forwarded_tags_lookup.
    rewrite assembled_tags_below_study by done.
    rewrite lookup_union_r by done.
    rewrite lookup_union_r by (by rewrite lookup_fmap, Hu).
    rewrite lookup_insert_eq. cbn.
    f_equal. apply short_is_kept. by destruct (direction study).
Qed.
End facts.

(** The sample trial and study, through both adapters. *)
Lemma adapters_record_fields_witness :
  (exists a d,
     WeightsAndBiasesCallback.__call__ Samples.wandbc Samples.study
       Samples.trial []
     = (Return Samples.wandbc, [wandb.ConfigUpdate a; wandb.Log d 0])
     /\ d !! "x" = Some (VFloat 0.5%float)
     /\ d !! "value" = Some (VFloat 2.25%float)
     /\ a !! "trial_state" = Some (VStr "COMPLETE"))
  /\ (exists st' r,
        MLflowCallback.__call__ Samples.str id Samples.shape_mismatch
          (MLflowCallback.mkSelf None (MLflowCallback.Single "value") false false)
          Samples.study Samples.trial Samples.fresh
        = (Return (MLflowCallback.mkSelf None (MLflowCallback.Single "value")
                     false false), st')
        /\ mlflow.finished st' = [r]
        /\ mlflow.params r !! "x" = Some "float"
        /\ mlflow.metrics r = {[ "value" := 2.25%float ]}
        /\ mlflow.tags r !! "x_distribution"
           = Some "UniformDistribution(high=1.0, low=-1.0)"
        /\ mlflow.tags r !! "my_user_attr" = Some "my_user_attr_value"
        /\ mlflow.tags r !! "state" = Some "COMPLETE"
        /\ mlflow.tags r !! "direction" = Some "MINIMIZE").
Proof.
  destruct (adapters_record_fields Samples.str id Samples.shape_mismatch)
    as [Hwandb Hmlflow].
  split.
  - destruct (Hwandb Samples.wandbc Samples.study Samples.trial [])
      as (a & d & Hcall & Hparams & Hmetric & _ & _ & Hstate & _).
    exists a, d. split; [exact Hcall|].
    split; [apply Hparams; [reflexivity | discriminate]|].
    split; [exact Hmetric | exact (Hstate eq_refl)].
  - destruct (Hmlflow None "value" false false Samples.study Samples.trial
                Samples.fresh)
      as (st' & r & Hcall & Hfin & Hparams & _ & Hmetrics & _ & Hdist
          & Hattr & Hstate & Hdir); [by right|].
    exists st', r. split; [exact Hcall|]. split; [exact Hfin|].
    split; [exact (Hparams "x" (VFloat 0.5%float) eq_refl)|].
    split; [exact Hmetrics|].
    split; [exact (Hdist "x" Samples.x_distribution eq_refl (or_introl eq_refl))|].
    split.
    { rewrite (Hattr "my_user_attr" (VStr "my_user_attr_value") eq_refl);
        [reflexivity | vm_compute; reflexivity | by left]. }
    split.
    + apply Hstate; [reflexivity | vm_compute; reflexivity | by left].
    + apply Hdir; [reflexivity | vm_compute; reflexivity | by left].
Defined.
End BothAdapters.
